(** * MathItem.ts: the MathItem life cycle, ProtoItem and TexError

    A shallow embedding of [mathjax3-ts/core/MathItem.ts] (and of the
    [TexError] class that follows it in the same file) together with the
    properties of the state machine that the specification relies on.

    Conventions of the embedding.
    - A JavaScript [number] that holds a state code, an index or an offset
      is an integer of [Z]; [NaN] and fractional values are outside the model.
    - [null] is [None]; a field typed [boolean] that the code compares with
      [null] is an [option bool].
    - The object literals [{}] stored in [bbox], [inputData] and [outputData]
      are allocated in a store, and the fields hold their addresses, so that
      "a new object" and "the same object emptied" are different things.
    - A string is a [string]: its characters are the code units below 256.
    - A method is a computation over the world (the receiver, the store and a
      log of the calls that were dispatched); a thrown value ends the
      computation and keeps the world as it was at the throw.
    - The methods are those of AbstractMathItem itself; [addEventHandlers],
      [updateDocument] and [removeFromDocument] have the empty bodies of the
      class, and all a call of them leaves is its entry in the log. *)

From Stdlib Require Import ZArith String Ascii List Bool Lia.
From stdpp Require Import base option list gmap strings.

Local Open Scope Z_scope.

(** ** Collaborators that the file imports but does not define *)

(** The types behind the imports of MathItem.ts ([MathDocument], [InputJax],
    [MmlNode]), the DOM types [Text] and [Element], the values an
    [OptionList] may hold ([any]) and the values that may be thrown. *)
Class Externals := {
  InputJax : Type;
  MmlNode : Type;
  MathDocument : Type;
  Text : Type;
  Element : Type;
  Any : Type;
  Thrown : Type
}.

(** An [OptionList] (and the so far empty [BBox]) is an object used as a
    map from property names to values. *)
Definition OptionList `{Externals} : Type := gmap string Any.
Definition BBox `{Externals} : Type := gmap string Any.

(** Address of an object of the store. *)
Definition ref : Type := nat.

(** ** Location *)

Module Location.
Section Defs.
Context `{Externals}.

Record t : Type := mk {
  i : option Z;
  n : option Z;
  delim : option string;
  node : option (Text + Element)
}.

(** The object literal [{n: k}]. *)
Definition of_n (k : Z) : t :=
  {| i := None; n := Some k; delim := None; node := None |}.

(** The default [{i: 0, n: 0, delim: ''}] of the constructor. *)
Definition origin : t :=
  {| i := Some 0; n := Some 0; delim := Some EmptyString; node := None |}.
End Defs.
End Location.

(** ** Metrics *)

Module Metrics.
(** The five measurements are stored and never computed with.
    [{} as Metrics] has none of the five properties; [setMetrics] sets
    them all. *)
Record t : Type := mk {
  em : option Z;
  ex : option Z;
  containerWidth : option Z;
  lineWidth : option Z;
  scale : option Z
}.

Definition empty : t :=
  {| em := None; ex := None; containerWidth := None;
     lineWidth := None; scale := None |}.
End Metrics.

(** ** ProtoItem *)

Module ProtoItem.
Section Defs.
Context `{Externals}.

Record t : Type := mk {
  math : string;
  start : Location.t;
  end_ : Location.t;
  open : option string;
  close : option string;
  n : option Z;
  display : option bool
}.
End Defs.
End ProtoItem.

(** [protoItem(open, math, close, n, start, end, display = null)].  The last
    argument is [None] when the caller leaves it out (or passes
    [undefined]), in which case the default [null] is used. *)
Definition protoItem `{Externals} (open math close : string) (n start end_ : Z)
    (display : option (option bool)) : ProtoItem.t :=
  let display := default None display in
  {| ProtoItem.open := Some open;
     ProtoItem.math := math;
     ProtoItem.close := Some close;
     ProtoItem.n := Some n;
     ProtoItem.start := Location.of_n start;
     ProtoItem.end_ := Location.of_n end_;
     ProtoItem.display := display |}.

(** ** The fields of a MathItem *)

Module MathItem.
Section Defs.
Context `{Externals}.

Record t : Type := mk {
  math : string;
  inputJax : InputJax;
  display : option bool;
  start : Location.t;
  end_ : Location.t;
  root : option MmlNode;
  typesetRoot : option Element;
  _state : Z;
  metrics : Metrics.t;
  bbox : ref;
  inputData : ref;
  outputData : ref
}.

(** Assignments [this.f = v]. *)
Definition set_root (v : option MmlNode) (it : t) : t :=
  mk (math it) (inputJax it) (display it) (start it) (end_ it)
     v (typesetRoot it) (_state it) (metrics it)
     (bbox it) (inputData it) (outputData it).

Definition set_typesetRoot (v : option Element) (it : t) : t :=
  mk (math it) (inputJax it) (display it) (start it) (end_ it)
     (root it) v (_state it) (metrics it)
     (bbox it) (inputData it) (outputData it).

Definition set__state (v : Z) (it : t) : t :=
  mk (math it) (inputJax it) (display it) (start it) (end_ it)
     (root it) (typesetRoot it) v (metrics it)
     (bbox it) (inputData it) (outputData it).

Definition set_metrics (v : Metrics.t) (it : t) : t :=
  mk (math it) (inputJax it) (display it) (start it) (end_ it)
     (root it) (typesetRoot it) (_state it) v
     (bbox it) (inputData it) (outputData it).

Definition set_bbox (v : ref) (it : t) : t :=
  mk (math it) (inputJax it) (display it) (start it) (end_ it)
     (root it) (typesetRoot it) (_state it) (metrics it)
     v (inputData it) (outputData it).

Definition set_inputData (v : ref) (it : t) : t :=
  mk (math it) (inputJax it) (display it) (start it) (end_ it)
     (root it) (typesetRoot it) (_state it) (metrics it)
     (bbox it) v (outputData it).

Definition set_outputData (v : ref) (it : t) : t :=
  mk (math it) (inputJax it) (display it) (start it) (end_ it)
     (root it) (typesetRoot it) (_state it) (metrics it)
     (bbox it) (inputData it) v.
End Defs.
End MathItem.


(** ** The world a method runs in *)

(** The two entry points of the output jax; [typeset] selects one of them
    by name, [document.outputJax[... ? 'escaped' : 'typeset']]. *)
Inductive Entry : Type := escaped | typeset_entry.

Section World.
Context `{Externals}.

(** A dispatched call, with the receiver as it was when the call was made. *)
Inductive Call : Type :=
| call_inputJax_compile (jax : InputJax) (self : MathItem.t)
| call_outputJax (entry : Entry) (self : MathItem.t) (document : MathDocument)
| call_addEventHandlers (self : MathItem.t)
| call_updateDocument (self : MathItem.t) (document : MathDocument)
| call_removeFromDocument (self : MathItem.t) (restore : bool).

Record World : Type := mkWorld {
  this : MathItem.t;
  store : list OptionList;
  log : list Call
}.

(** How a call ends: it returns a value or throws one. *)
Inductive Outcome (A : Type) : Type :=
| Return (a : A)
| Throw (e : Thrown).

Definition M (A : Type) : Type := World -> World * Outcome A.
End World.

Arguments Return {_ _} a.
Arguments Throw {_ _} e.

#[global] Instance M_ret `{Externals} : MRet M :=
  fun A a w => (w, Return a).

#[global] Instance M_bind `{Externals} : MBind M :=
  fun A B k m w =>
    match m w with
    | (w', Return a) => k a w'
    | (w', Throw e) => (w', Throw e)
    end.

#[global] Instance M_fmap `{Externals} : FMap M :=
  fun A B f m w =>
    match m w with
    | (w', Return a) => (w', Return (f a))
    | (w', Throw e) => (w', Throw e)
    end.

(** What the input jax and the output jax of a document do is not in this
    file.  They are taken as given, under the contract the specification
    states for them: each sees the item it is passed and the objects of the
    store, and returns a value or throws; it does not assign the fields of
    the item. *)
Class Collaborators `{Externals} := {
  inputJax_compile :
    InputJax -> MathItem.t -> list OptionList -> Thrown + MmlNode;
  outputJax :
    MathDocument -> Entry -> MathItem.t -> MathDocument -> list OptionList ->
    Thrown + Element
}.

Section Primitives.
Context `{Collaborators}.

Definition get_this : M MathItem.t :=
  fun w => (w, Return (this w)).

Definition assign (f : MathItem.t -> MathItem.t) : M unit :=
  fun w => (mkWorld (f (this w)) (store w) (log w), Return tt).

Definition log_call (c : Call) : M unit :=
  fun w => (mkWorld (this w) (store w) (log w ++ [c]), Return tt).

(** The object literal [{}]: a new empty object at the end of the store. *)
Definition new_object : M ref :=
  fun w => (mkWorld (this w) (store w ++ [∅]) (log w),
            Return (length (store w))).

(** A collaborator's answer, read in the current store. *)
Definition answer {A : Type} (f : list OptionList -> Thrown + A) : M A :=
  fun w => match f (store w) with
           | inr a => (w, Return a)
           | inl e => (w, Throw e)
           end.

(** [jax.compile(self)]. *)
Definition invoke_inputJax_compile (jax : InputJax) (self : MathItem.t)
    : M MmlNode :=
  log_call (call_inputJax_compile jax self);;
  answer (inputJax_compile jax self).

(** [document.outputJax[entry](self, document)]. *)
Definition invoke_outputJax (entry : Entry) (self : MathItem.t)
    (document : MathDocument) : M Element :=
  log_call (call_outputJax entry self document);;
  answer (outputJax document entry self document).
End Primitives.

(** ** AbstractMathItem *)

Module STATE.
Definition UNPROCESSED : Z := 0.
Definition COMPILED : Z := 1.
Definition TYPESET : Z := 2.
Definition INSERTED : Z := 3.
End STATE.

Section AbstractMathItem.
Context `{Collaborators}.

(** [new AbstractMathItem(math, jax, display, start, end)] in a store
    [objects]: the field initialisers, then the body of the constructor.
    Both allocate [bbox], [inputData] and [outputData] (in this order), so
    the item ends up with the second three of six new objects.  The
    defaults of [display], [start] and [end] are taken when the argument is
    left out ([None]). *)
Definition constructor (math : string) (jax : InputJax)
    (display : option (option bool)) (start end_ : option Location.t)
    (objects : list OptionList) : World :=
  let display := default (Some true) display in
  let start := default Location.origin start in
  let end_ := default Location.origin end_ in
  {| this :=
       {| MathItem.math := math;
          MathItem.inputJax := jax;
          MathItem.display := display;
          MathItem.start := start;
          MathItem.end_ := end_;
          MathItem.root := None;
          MathItem.typesetRoot := None;
          MathItem._state := STATE.UNPROCESSED;
          MathItem.metrics := Metrics.empty;
          MathItem.bbox := (length objects + 3)%nat;
          MathItem.inputData := (length objects + 4)%nat;
          MathItem.outputData := (length objects + 5)%nat |};
     store := objects ++ [∅; ∅; ∅; ∅; ∅; ∅];
     log := [] |}.

(** [addEventHandlers() {}] *)
Definition addEventHandlers : M unit :=
  self ← get_this;
  log_call (call_addEventHandlers self).

(** [updateDocument(document) {}] *)
Definition updateDocument (document : MathDocument) : M unit :=
  self ← get_this;
  log_call (call_updateDocument self document).

(** [removeFromDocument(restore = false) {}] *)
Definition removeFromDocument (restore : bool) : M unit :=
  self ← get_this;
  log_call (call_removeFromDocument self restore).

(** [setMetrics(em, ex, cwidth, lwidth, scale)] *)
Definition setMetrics (em ex cwidth lwidth scale : Z) : M unit :=
  assign (MathItem.set_metrics
            {| Metrics.em := Some em; Metrics.ex := Some ex;
               Metrics.containerWidth := Some cwidth;
               Metrics.lineWidth := Some lwidth;
               Metrics.scale := Some scale |}).

(** [state(state = null, restore = false)]; the first argument is [None]
    for a call without it. *)
Definition state (state : option Z) (restore : bool) : M Z :=
  match state with
  | Some state =>
      cur ← MathItem._state <$> get_this;
      (if (state <? STATE.INSERTED) && (STATE.INSERTED <=? cur)
       then removeFromDocument restore else mret tt);;
      cur ← MathItem._state <$> get_this;
      (if (state <? STATE.TYPESET) && (STATE.TYPESET <=? cur)
       then (b ← new_object; assign (MathItem.set_bbox b);;
             o ← new_object; assign (MathItem.set_outputData o))
       else mret tt);;
      cur ← MathItem._state <$> get_this;
      (if (state <? STATE.COMPILED) && (STATE.COMPILED <=? cur)
       then (d ← new_object; assign (MathItem.set_inputData d))
       else mret tt);;
      assign (MathItem.set__state state);;
      MathItem._state <$> get_this
  | None => MathItem._state <$> get_this
  end.

(** [compile(document)] *)
Definition compile (document : MathDocument) : M unit :=
  s ← state None false;
  if s <? STATE.COMPILED then
    self ← get_this;
    node ← invoke_inputJax_compile (MathItem.inputJax self) self;
    assign (MathItem.set_root (Some node));;
    state (Some STATE.COMPILED) false;;
    mret tt
  else mret tt.

(** [typeset(document)] *)
Definition typeset (document : MathDocument) : M unit :=
  s ← state None false;
  if s <? STATE.TYPESET then
    self ← get_this;
    elt ← invoke_outputJax
            (match MathItem.display self with
             | None => escaped
             | Some _ => typeset_entry
             end) self document;
    assign (MathItem.set_typesetRoot (Some elt));;
    state (Some STATE.TYPESET) false;;
    mret tt
  else mret tt.
End AbstractMathItem.

(** ** TexError *)

Module TexError.

Record t : Type := mk {
  id : option string;
  message : string
}.

(** Character classes of the two regular expressions: [\d], [[a-z]], and
    the line terminators that [.] does not match (of which only LF and CR
    are characters of [ascii]). *)
Definition is_digit (c : ascii) : bool :=
  Ascii.leb "0" c && Ascii.leb c "9".

Definition is_lower (c : ascii) : bool :=
  Ascii.leb "a" c && Ascii.leb c "z".

Definition is_line_terminator (c : ascii) : bool :=
  Ascii.eqb c "010" || Ascii.eqb c "013".

(** The longest prefix of characters of a class, and what follows it: a
    greedy [c*]. *)
Fixpoint span (p : ascii -> bool) (s : string) : string * string :=
  match s with
  | String c s' =>
      if p c then let (a, b) := span p s' in (String c a, b)
      else (EmptyString, s)
  | EmptyString => (EmptyString, EmptyString)
  end.

(** A greedy [c+]; the class that follows never overlaps, so giving
    characters back cannot help. *)
Definition span1 (p : ascii -> bool) (s : string) : option (string * string) :=
  match span p s with
  | (EmptyString, _) => None
  | found => Some found
  end.

(** What a match consumed, and what is left of the subject. *)
Definition Match : Type := string * string.

Definition consumed (prefix : string) (m : option Match) : option Match :=
  match m with
  | Some (text, rest) => Some (prefix +:+ text, rest)
  | None => None
  end.

(** The first alternative that matches. *)
Definition or_else (m : option Match) (next : option Match) : option Match :=
  match m with
  | Some _ => m
  | None => next
  end.

(** [\{\d+\}] at the start of [s]. *)
Definition braced_number (s : string) : option Match :=
  match s with
  | String "{" s1 =>
      match span1 is_digit s1 with
      | Some (digits, String "}" rest) =>
          Some (String "{" (digits +:+ "}"), rest)
      | _ => None
      end
  | _ => None
  end.

(** In [pattern], write [T] for the group [(?:%\{\d+\}|%.|[^\}])].  Here
    is the tail [T*] of one option of a plural form, then what can follow
    it: a further option [\|T*] of the enclosing repetition, or the closing
    [\}].  The alternatives are tried in the order of the
    pattern and the first way to reach the closing brace is taken, as the
    backtracking matcher does.  Every step consumes a character, so [fuel]
    above the length of [s] is never used up. *)
Fixpoint plural_options (fuel : nat) (s : string) : option Match :=
  match fuel with
  | O => None
  | S fuel =>
      or_else
        match s with
        | String "%" s1 =>
            match braced_number s1 with
            | Some (number, rest) =>
                consumed (String "%" number) (plural_options fuel rest)
            | None => None
            end
        | _ => None
        end
     (or_else
        match s with
        | String "%" (String c rest) =>
            if is_line_terminator c then None
            else consumed (String "%" (String c EmptyString))
                          (plural_options fuel rest)
        | _ => None
        end
     (or_else
        match s with
        | String c rest =>
            if Ascii.eqb c "}" then None
            else consumed (String c EmptyString) (plural_options fuel rest)
        | _ => None
        end
     (or_else
        match s with
        | String "|" rest => consumed "|" (plural_options fuel rest)
        | _ => None
        end
        match s with
        | String "}" rest => Some ("}", rest)
        | _ => None
        end)))
  end.

(** [\{[a-z]+:\%\d+(?: \|T* )+\}] at the start of [s]. *)
Definition plural_form (s : string) : option Match :=
  match s with
  | String "{" s1 =>
      match span1 is_lower s1 with
      | Some (name, String ":" (String "%" s2)) =>
          match span1 is_digit s2 with
          | Some (digits, String "|" s3) =>
              consumed (String "{" (name +:+ ":%" +:+ digits +:+ "|"))
                       (plural_options (S (String.length s3)) s3)
          | _ => None
          end
      | _ => None
      end
  | _ => None
  end.

(** The group of [pattern], [(\d+|\{\d+\}|\{[a-z]+:...\}|.)], at the start
    of [s]: what comes after a [%]. *)
Definition pattern_group (s : string) : option Match :=
  or_else (span1 is_digit s)
 (or_else (braced_number s)
 (or_else (plural_form s)
    match s with
    | String c rest =>
        if is_line_terminator c then None
        else Some (String c EmptyString, rest)
    | EmptyString => None
    end)).

(** [pattern] at the start of [s]; the result is the text of the group. *)
Definition pattern (s : string) : option Match :=
  match s with
  | String "%" s1 => pattern_group s1
  | _ => None
  end.

(** [str.split(pattern)]: the pieces between the matches, with the text of
    the group after each piece but the last.  [piece] is the piece being
    read, [s] what is left of the subject; a match is looked for at each
    position in turn.  A match consumes at least two characters, so [fuel]
    above the length of [s] is never used up. *)
Fixpoint split_from (fuel : nat) (piece s : string) : list string :=
  match fuel with
  | O => [piece +:+ s]
  | S fuel =>
      match s with
      | EmptyString => [piece]
      | String c s' =>
          match pattern s with
          | Some (group, rest) =>
              piece :: group :: split_from fuel EmptyString rest
          | None => split_from fuel (piece +:+ String c EmptyString) s'
          end
      end
  end.

Definition split (str : string) : list string :=
  split_from (S (String.length str)) EmptyString str.

(** [parseInt(s, 10)] of a string that starts with a digit: the value of
    its leading digits ([NaN], here [None], when there is none). *)
Definition digit_value (c : ascii) : Z :=
  Z.of_nat (nat_of_ascii c) - 48.

Definition parseInt (s : string) : option Z :=
  match span1 is_digit s with
  | Some (digits, _) =>
      Some (fold_left (fun n c => 10 * n + digit_value c)
                      (list_ascii_of_string digits) 0)
  | None => None
  end.

(** [args[k - 1]], which is [undefined] ([None]) unless [k - 1] is an
    index of [args]. *)
Definition argument (args : list string) (k : option Z) : option string :=
  match k with
  | Some k => if 0 <=? k - 1 then args !! Z.to_nat (k - 1) else None
  | None => None
  end.

(** [/^\{([a-z]+):%(\d+)\|( .* )\}$/] matches [s]: after the bar, any
    characters but line terminators, then a closing brace at the end. *)
Definition is_plural (s : string) : bool :=
  match s with
  | String "{" s1 =>
      match span1 is_lower s1 with
      | Some (_, String ":" (String "%" s2)) =>
          match span1 is_digit s2 with
          | Some (_, String "|" s3) =>
              match rev (list_ascii_of_string s3) with
              | c :: before =>
                  Ascii.eqb c "}" &&
                  forallb (fun c => negb (is_line_terminator c)) before
              | [] => false
              end
          | _ => false
          end
      | _ => false
      end
  | _ => false
  end.

(** [s.charAt(0)] and [s.substr(1)], [s.substr(1, s.length - 2)]. *)
Definition charAt0 (s : string) : string :=
  match s with
  | String c _ => String c EmptyString
  | EmptyString => EmptyString
  end.

Definition substr1 (s : string) : string :=
  match s with
  | String _ s' => s'
  | EmptyString => EmptyString
  end.

Definition substr1_but_last (s : string) : string :=
  String.substring 1 (String.length s - 2) s.

(** The body of the loop of [processString] for one odd entry [part] of
    [parts], up to the final test for [null]: the new value of the entry,
    [None] for [undefined].  The arguments are strings, so the two tests
    [typeof parts[i] === 'number'] are false. *)
Definition replacement (args : list string) (part : string) : option string :=
  let c := charAt0 part in
  if String.leb "0" c && String.leb c "9" then
    argument args (parseInt part)
  else if String.eqb c "{" then
    let c := substr1 part in
    if String.leb "0" c && String.leb c "9" then
      argument args (parseInt (substr1_but_last part))
    else if is_plural part then Some ("%" +:+ part)
    else Some part
  else Some part.

(** The loop over the odd entries of [parts]. *)
Fixpoint replace_odd (args : list string) (parts : list string) : list string :=
  match parts with
  | piece :: part :: parts' =>
      piece :: default "???" (replacement args part) :: replace_odd args parts'
  | _ => parts
  end.

(** [processString(str, args)] *)
Definition processString (str : string) (args : list string) : string :=
  String.concat EmptyString (replace_odd args (split str)).

(** [new TexError(input)].  [input[1]] is read under the test that the
    array has it. *)
Definition constructor (input : list string) : t :=
  if negb (1 <? Z.of_nat (length input)) then
    {| id := None; message := EmptyString |}
  else
    {| id := input !! 0%nat;
       message := processString (nth 1 input EmptyString) (drop 2 input) |}.

End TexError.

(** ** Vocabulary of the properties *)

(** The guard of [state] for one level: the target is below the level and
    the item is at or above it. *)
Definition leaves (level newState cur : Z) : bool :=
  (newState <? level) && (level <=? cur).

(** The object a field points to. *)
Definition object_of `{Externals} (w : World) (l : ref) : option OptionList :=
  store w !! l.

(** [l] is a new object of [w'], absent from [w], and it is empty. *)
Definition fresh_empty `{Externals} (w w' : World) (l : ref) : Prop :=
  object_of w l = None /\ object_of w' l = Some ∅.

(** How many times the log shows the input jax, respectively the output
    jax, being invoked. *)
Definition is_inputJax_call `{Externals} (c : Call) : bool :=
  match c with call_inputJax_compile _ _ => true | _ => false end.

Definition is_outputJax_call `{Externals} (c : Call) : bool :=
  match c with call_outputJax _ _ _ => true | _ => false end.

Definition inputJax_calls `{Externals} (lg : list Call) : nat :=
  length (List.filter is_inputJax_call lg).

Definition outputJax_calls `{Externals} (lg : list Call) : nat :=
  length (List.filter is_outputJax_call lg).

(** ** Reading the messages of TexError *)

(** The string has no percent sign. *)
Fixpoint no_percent (s : string) : bool :=
  match s with
  | String c s' => negb (Ascii.eqb c "%") && no_percent s'
  | EmptyString => true
  end.

(** Every character of the string is of the class; the string starts with
    a character of the class. *)
Fixpoint every (p : ascii -> bool) (s : string) : bool :=
  match s with
  | String c s' => p c && every p s'
  | EmptyString => true
  end.

Definition starts_with (p : ascii -> bool) (s : string) : bool :=
  match s with
  | String c _ => p c
  | EmptyString => false
  end.

Definition all_digits (s : string) : bool := every TexError.is_digit s.
Definition all_lower (s : string) : bool := every TexError.is_lower s.
Definition starts_with_digit (s : string) : bool :=
  starts_with TexError.is_digit s.

(** A character that the options of a plural form take as it is: not a
    percent sign, not a closing brace, not a line terminator. *)
Definition plain_option_char (c : ascii) : bool :=
  negb (Ascii.eqb c "%") && negb (Ascii.eqb c "}")
  && negb (TexError.is_line_terminator c).

(** The pieces of a split put together again, a percent sign before each
    group. *)
Fixpoint rejoin (parts : list string) : string :=
  match parts with
  | piece :: group :: parts' => piece +:+ String "%" (group +:+ rejoin parts')
  | [piece] => piece
  | [] => EmptyString
  end.

(** The entries of odd index: the groups of a split. *)
Fixpoint groups (parts : list string) : list string :=
  match parts with
  | _ :: group :: parts' => group :: groups parts'
  | _ => []
  end.

(** ** Clients of a MathItem *)

(** The calls a client can make on an item, by the methods of the
    [MathItem] interface. *)
Inductive Method `{Externals} : Type :=
| do_compile (document : MathDocument)
| do_typeset (document : MathDocument)
| do_addEventHandlers
| do_updateDocument (document : MathDocument)
| do_removeFromDocument (restore : bool)
| do_setMetrics (em ex cwidth lwidth scale : Z)
| do_state (state : option Z) (restore : bool).

Definition invoke `{Collaborators} (m : Method) : M unit :=
  match m with
  | do_compile document => compile document
  | do_typeset document => typeset document
  | do_addEventHandlers => addEventHandlers
  | do_updateDocument document => updateDocument document
  | do_removeFromDocument restore => removeFromDocument restore
  | do_setMetrics em ex cwidth lwidth scale =>
      setMetrics em ex cwidth lwidth scale
  | do_state state' restore => state state' restore;; mret tt
  end.

(** The world after a call, whether it returned or threw (a client may
    catch what is thrown and go on), and after a series of calls. *)
Definition after `{Collaborators} (m : Method) (w : World) : World :=
  (invoke m w).1.

Definition after_all `{Collaborators} (ms : list Method) (w : World) : World :=
  fold_left (fun w m => after m w) ms w.

(** The calls that set the state from outside: [state] with a target. *)
Definition sets_state `{Externals} (m : Method) : bool :=
  match m with
  | do_state (Some _) _ => true
  | _ => false
  end.

(** [bbox], [inputData] and [outputData] point to three different objects
    of the store. *)
Definition containers_apart `{Externals} (w : World) : Prop :=
  (MathItem.bbox (this w) < length (store w))%nat /\
  (MathItem.inputData (this w) < length (store w))%nat /\
  (MathItem.outputData (this w) < length (store w))%nat /\
  MathItem.bbox (this w) <> MathItem.inputData (this w) /\
  MathItem.bbox (this w) <> MathItem.outputData (this w) /\
  MathItem.inputData (this w) <> MathItem.outputData (this w).

(** The state tells what has been computed: nothing at UNPROCESSED, the
    tree at COMPILED, the typeset output at TYPESET. *)
Definition state_tells `{Externals} (w : World) : Prop :=
  (MathItem._state (this w) = STATE.UNPROCESSED /\
   MathItem.root (this w) = None /\ MathItem.typesetRoot (this w) = None) \/
  (MathItem._state (this w) = STATE.COMPILED /\
   MathItem.root (this w) <> None /\ MathItem.typesetRoot (this w) = None) \/
  (MathItem._state (this w) = STATE.TYPESET /\
   MathItem.typesetRoot (this w) <> None).

(** What [root] and [typesetRoot] hold was returned by a call of the input
    jax, respectively the output jax, that is in the log. *)
Definition roots_come_from_calls `{Collaborators} (w : World) : Prop :=
  (forall node,
      MathItem.root (this w) = Some node ->
      exists self objects,
        In (call_inputJax_compile (MathItem.inputJax self) self) (log w) /\
        inputJax_compile (MathItem.inputJax self) self objects = inr node) /\
  (forall elt,
      MathItem.typesetRoot (this w) = Some elt ->
      exists entry self document objects,
        In (call_outputJax entry self document) (log w) /\
        outputJax document entry self document objects = inr elt).

(** ** A concrete setting, for the examples *)

(** Everything external is a string: a jax is known by its name, a tree and
    an element by their text, and a thrown value by its message. *)
Definition sample_externals : Externals :=
  {| InputJax := string; MmlNode := string; MathDocument := string;
     Text := string; Element := string; Any := string; Thrown := string |}.

Definition sample_tree (text : string) : @MmlNode sample_externals := text.
Definition sample_element (text : string) : @Element sample_externals := text.
Definition sample_thrown (message : string) : @Thrown sample_externals :=
  message.

(** An input jax that rejects the empty expression, and an output jax whose
    two entry points tag what they produce. *)
Definition sample_collaborators : @Collaborators sample_externals :=
  @Build_Collaborators sample_externals
    (fun jax self objects =>
       if String.eqb (MathItem.math self) EmptyString
       then inl (sample_thrown "ParseError")
       else inr (sample_tree ("mml:" ++ MathItem.math self)))
    (fun document entry self document' objects =>
       match entry with
       | escaped => inr (sample_element ("escaped:" ++ MathItem.math self))
       | typeset_entry =>
           inr (sample_element ("typeset:" ++ MathItem.math self))
       end).

(** The document of the examples and the name of their input jax. *)
Definition sample_document : @MathDocument sample_externals := "doc"%string.
Definition sample_jax : @InputJax sample_externals := "TeX"%string.

Section Samples.
#[local] Existing Instance sample_externals.
#[local] Existing Instance sample_collaborators.

(** The item of the specification's scenario, [x^2] in inline mode, and an
    item whose expression is empty. *)
Definition sample_item : World :=
  constructor "x^2" sample_jax (Some (Some false)) None None [].

Definition sample_empty_item : World :=
  constructor EmptyString sample_jax (Some None) None None [].

(** The scenario run up to typesetting, and up to insertion; the driver
    records the insertion with [state(STATE.INSERTED)]. *)
Definition sample_typeset : World :=
  ((compile sample_document;; typeset sample_document;;
    setMetrics 16 8 800 640 1) sample_item).1.

Definition sample_inserted : World :=
  ((updateDocument sample_document;; state (Some STATE.INSERTED) false)
     sample_typeset).1.
End Samples.

(** * Properties *)

Ltac run_M :=
  cbv [mbind M_bind fmap M_fmap mret M_ret get_this assign new_object
       answer log_call invoke_inputJax_compile invoke_outputJax
       addEventHandlers updateDocument removeFromDocument setMetrics
       this store log].

Ltac item_simpl :=
  cbn [MathItem.math MathItem.inputJax MathItem.display MathItem.start
       MathItem.end_ MathItem.root MathItem.typesetRoot MathItem._state
       MathItem.metrics MathItem.bbox MathItem.inputData MathItem.outputData
       MathItem.set_root MathItem.set_typesetRoot MathItem.set__state
       MathItem.set_metrics MathItem.set_bbox MathItem.set_inputData
       MathItem.set_outputData this store log fst snd] in *.

Section StateProperties.
Context `{Externals}.

Lemma leaves_spec level newState cur :
  leaves level newState cur = true <-> newState < level <= cur.
Proof. unfold leaves. rewrite andb_true_iff, Z.ltb_lt, Z.leb_le. tauto. Qed.

Lemma leaves_forward level newState cur :
  cur <= newState -> leaves level newState cur = false.
Proof.
  intros Hle. destruct (leaves level newState cur) eqn:E; [|reflexivity].
  apply leaves_spec in E. lia.
Qed.

(** [state] without a target only reads. *)
Lemma state_None_run (w : World) (restore : bool) :
  state None restore w = (w, Return (MathItem._state (this w))).
Proof. destruct w. reflexivity. Qed.

(** [state] with a target, in closed form. *)
Lemma state_Some_run (w : World) (newState : Z) (restore : bool) :
  let cur := MathItem._state (this w) in
  let g2 := leaves STATE.TYPESET newState cur in
  let g3 := leaves STATE.COMPILED newState cur in
  let k := length (store w) in
  let it2 :=
    if g2 then MathItem.set_outputData (S k) (MathItem.set_bbox k (this w))
    else this w in
  let k3 := if g2 then S (S k) else k in
  let it3 := if g3 then MathItem.set_inputData k3 it2 else it2 in
  state (Some newState) restore w =
    ({| this := MathItem.set__state newState it3;
        store := store w ++ (if g2 then [∅; ∅] else []) ++
                            (if g3 then [∅] else []);
        log := log w ++
               (if leaves STATE.INSERTED newState cur
                then [call_removeFromDocument (this w) restore] else []) |},
     Return newState).
Proof.
  destruct w as [it st lg]. cbn -[Z.ltb Z.leb state].
  unfold leaves, state. run_M.
  destruct ((newState <? STATE.INSERTED) && _) eqn:G1;
  cbn -[Z.ltb Z.leb];
  destruct ((newState <? STATE.TYPESET) && _) eqn:G2;
  cbn -[Z.ltb Z.leb];
  destruct ((newState <? STATE.COMPILED) && _) eqn:G3;
  cbn -[Z.ltb Z.leb]; rewrite ?app_nil_r, ?length_app; cbn;
  rewrite <- ?app_assoc, ?Nat.add_1_r; reflexivity.
Qed.

Lemma state_Some_state (w : World) (newState : Z) (restore : bool) :
  MathItem._state (this (state (Some newState) restore w).1) = newState.
Proof.
  rewrite state_Some_run. reflexivity.
Qed.

Lemma set__state_same (it : MathItem.t) :
  MathItem.set__state (MathItem._state it) it = it.
Proof. destruct it; reflexivity. Qed.

Lemma lookup_end {A : Type} (l l' : list A) (x : A) :
  (l ++ x :: l') !! length l = Some x.
Proof. rewrite lookup_app_r, Nat.sub_diag; [reflexivity | lia]. Qed.

Lemma lookup_end_1 {A : Type} (l l' : list A) (x y : A) :
  (l ++ x :: y :: l') !! S (length l) = Some y.
Proof.
  rewrite lookup_app_r by lia.
  replace (S (length l) - length l)%nat with 1%nat by lia. reflexivity.
Qed.

Lemma lookup_end_2 {A : Type} (l l' : list A) (x y z : A) :
  (l ++ x :: y :: z :: l') !! S (S (length l)) = Some z.
Proof.
  rewrite lookup_app_r by lia.
  replace (S (S (length l)) - length l)%nat with 2%nat by lia. reflexivity.
Qed.

Lemma lookup_past {A : Type} (l : list A) (k : nat) :
  (length l <= k)%nat -> l !! k = None.
Proof. apply lookup_ge_None_2. Qed.

Lemma object_of_grow (w : World) (it : MathItem.t) (new : list OptionList)
    (lg : list Call) (l : ref) (o : OptionList) :
  object_of w l = Some o ->
  object_of (mkWorld it (store w ++ new) lg) l = Some o.
Proof. unfold object_of. cbn. apply lookup_app_l_Some. Qed.

(** C1.  [state(newState, restore)] returns [newState] and leaves it in the
    state field, whatever the guards did.  The three guards are decided
    independently, each from [newState] and the state the item was in.
    The INSERTED guard comes first: it calls [removeFromDocument(restore)]
    on the item as it was, nothing being reset yet.  The TYPESET guard then
    puts two new empty objects in [bbox] and [outputData], and the COMPILED
    guard after it a new empty object in [inputData]; no other object is
    created and no existing object is touched.  A move forward, and so a
    move to the state the item is in, fires no guard: the former only
    stores the state, the latter changes nothing at all. *)
Theorem state_cleanup_guards (w : World) (newState : Z) (restore : bool) :
  let cur := MathItem._state (this w) in
  let w' := (state (Some newState) restore w).1 in
  let k := length (store w) in
  (state (Some newState) restore w).2 = Return newState /\
  MathItem._state (this w') = newState /\
  log w' = log w ++
           (if leaves STATE.INSERTED newState cur
            then [call_removeFromDocument (this w) restore] else []) /\
  (if leaves STATE.TYPESET newState cur
   then MathItem.bbox (this w') = k /\
        MathItem.outputData (this w') = S k /\
        fresh_empty w w' (MathItem.bbox (this w')) /\
        fresh_empty w w' (MathItem.outputData (this w'))
   else MathItem.bbox (this w') = MathItem.bbox (this w) /\
        MathItem.outputData (this w') = MathItem.outputData (this w)) /\
  (if leaves STATE.COMPILED newState cur
   then MathItem.inputData (this w') =
          (if leaves STATE.TYPESET newState cur then S (S k) else k) /\
        fresh_empty w w' (MathItem.inputData (this w'))
   else MathItem.inputData (this w') = MathItem.inputData (this w)) /\
  length (store w') =
    (k + (if leaves STATE.TYPESET newState cur then 2 else 0)
       + (if leaves STATE.COMPILED newState cur then 1 else 0))%nat /\
  (forall l o, object_of w l = Some o -> object_of w' l = Some o) /\
  (forall level,
      leaves level newState cur = true <-> newState < level <= cur) /\
  (cur <= newState ->
   w' = mkWorld (MathItem.set__state newState (this w)) (store w) (log w)) /\
  (newState = cur -> w' = w).
Proof.
  intros cur w' k. subst w'. rewrite state_Some_run. fold cur k.
  cbn [fst snd this store log].
  split; [reflexivity|].
  split; [destruct (leaves STATE.COMPILED _ _), (leaves STATE.TYPESET _ _);
          reflexivity|].
  split; [reflexivity|].
  split.
  { destruct (leaves STATE.TYPESET newState cur) eqn:G2;
    destruct (leaves STATE.COMPILED newState cur) eqn:G3;
    unfold fresh_empty, object_of; item_simpl;
    repeat split; try reflexivity;
    first [ apply lookup_past; subst k; lia
          | apply lookup_end | apply lookup_end_1 ]. }
  split.
  { destruct (leaves STATE.TYPESET newState cur) eqn:G2;
    destruct (leaves STATE.COMPILED newState cur) eqn:G3;
    unfold fresh_empty, object_of; item_simpl; cbn [app];
    repeat split; try reflexivity;
    first [ apply lookup_past; subst k; lia
          | apply lookup_end | apply lookup_end_2 ]. }
  split.
  { destruct (leaves STATE.TYPESET newState cur),
             (leaves STATE.COMPILED newState cur);
    rewrite !length_app; cbn; subst k; lia. }
  split; [intros l o; apply object_of_grow|].
  split; [intros level; apply leaves_spec|].
  split.
  - intros Hle. rewrite !(leaves_forward _ _ _ Hle). cbn.
    rewrite app_nil_r. f_equal. apply app_nil_r.
  - intros ->. subst cur. rewrite !leaves_forward by lia. cbn.
    rewrite !app_nil_r, set__state_same. destruct w; reflexivity.
Qed.

(** C2.  [state] never assigns [root] or [typesetRoot], whatever the target:
    both keep the values they had.  In particular, when an inserted item
    is rolled back to UNPROCESSED, [bbox], [outputData] and [inputData]
    point to empty objects afterwards, while [root] and [typesetRoot] are
    those of before the rollback. *)
Theorem state_keeps_roots (w : World) (restore : bool) :
  (forall newState : option Z,
      let w' := (state newState restore w).1 in
      MathItem.root (this w') = MathItem.root (this w) /\
      MathItem.typesetRoot (this w') = MathItem.typesetRoot (this w)) /\
  (MathItem._state (this w) = STATE.INSERTED ->
   let w' := (state (Some STATE.UNPROCESSED) restore w).1 in
   object_of w' (MathItem.bbox (this w')) = Some ∅ /\
   object_of w' (MathItem.outputData (this w')) = Some ∅ /\
   object_of w' (MathItem.inputData (this w')) = Some ∅ /\
   MathItem.root (this w') = MathItem.root (this w) /\
   MathItem.typesetRoot (this w') = MathItem.typesetRoot (this w)).
Proof.
  split.
  - intros [newState|]; cbn zeta.
    + rewrite state_Some_run. item_simpl.
      destruct (leaves STATE.COMPILED _ _), (leaves STATE.TYPESET _ _);
        split; reflexivity.
    + rewrite state_None_run. split; reflexivity.
  - intros Hins. cbn zeta. rewrite state_Some_run, Hins.
    unfold object_of. cbn.
    repeat split;
      first [ apply lookup_end | apply lookup_end_1 | apply lookup_end_2 ].
Qed.

(** C9.  [state] assigns none of [math], [inputJax], [display], [start],
    [end] and [metrics]; so the metrics that [setMetrics] recorded are
    still there after a rollback to UNPROCESSED. *)
Theorem state_frame (w : World) (newState : option Z) (restore : bool) :
  let w' := (state newState restore w).1 in
  (MathItem.math (this w') = MathItem.math (this w) /\
   MathItem.inputJax (this w') = MathItem.inputJax (this w) /\
   MathItem.display (this w') = MathItem.display (this w) /\
   MathItem.start (this w') = MathItem.start (this w) /\
   MathItem.end_ (this w') = MathItem.end_ (this w) /\
   MathItem.metrics (this w') = MathItem.metrics (this w)) /\
  (forall em ex cwidth lwidth scale : Z,
      MathItem.metrics
        (this ((setMetrics em ex cwidth lwidth scale;;
                state (Some STATE.UNPROCESSED) restore) w).1) =
      {| Metrics.em := Some em; Metrics.ex := Some ex;
         Metrics.containerWidth := Some cwidth;
         Metrics.lineWidth := Some lwidth;
         Metrics.scale := Some scale |}).
Proof.
  cbn zeta. split.
  - destruct newState as [newState|].
    + rewrite state_Some_run. item_simpl.
      destruct (leaves STATE.COMPILED _ _), (leaves STATE.TYPESET _ _);
        repeat split; reflexivity.
    + rewrite state_None_run. repeat split; reflexivity.
  - intros em ex cwidth lwidth scale.
    unfold mbind, M_bind, setMetrics, assign. rewrite state_Some_run.
    item_simpl.
    destruct (leaves STATE.COMPILED _ _), (leaves STATE.TYPESET _ _);
      reflexivity.
Qed.
End StateProperties.

Section ForwardProperties.
Context `{Collaborators}.

Lemma state_forward_run (w : World) (newState : Z) (restore : bool) :
  MathItem._state (this w) <= newState ->
  state (Some newState) restore w =
    (mkWorld (MathItem.set__state newState (this w)) (store w) (log w),
     Return newState).
Proof.
  intros Hle. rewrite state_Some_run, !(leaves_forward _ _ _ Hle).
  cbn. rewrite !app_nil_r. reflexivity.
Qed.

(** [compile] in closed form. *)
Lemma compile_run (document : MathDocument) (w : World) :
  compile document w =
    if MathItem._state (this w) <? STATE.COMPILED then
      let call := call_inputJax_compile (MathItem.inputJax (this w)) (this w) in
      match inputJax_compile (MathItem.inputJax (this w)) (this w) (store w) with
      | inr node =>
          (mkWorld (MathItem.set__state STATE.COMPILED
                      (MathItem.set_root (Some node) (this w)))
                   (store w) (log w ++ [call]),
           Return tt)
      | inl e => (mkWorld (this w) (store w) (log w ++ [call]), Throw e)
      end
    else (w, Return tt).
Proof.
  unfold compile. unfold mbind at 1. unfold M_bind at 1.
  rewrite state_None_run.
  destruct (MathItem._state (this w) <? STATE.COMPILED) eqn:Hlt;
    [|reflexivity].
  apply Z.ltb_lt in Hlt.
  destruct w as [it st lg]. run_M. item_simpl.
  destruct (inputJax_compile (MathItem.inputJax it) it st) as [e|node];
    [reflexivity|].
  rewrite state_forward_run by (item_simpl; lia). reflexivity.
Qed.

(** [typeset] in closed form. *)
Lemma typeset_run (document : MathDocument) (w : World) :
  typeset document w =
    if MathItem._state (this w) <? STATE.TYPESET then
      let entry := match MathItem.display (this w) with
                   | None => escaped
                   | Some _ => typeset_entry
                   end in
      let call := call_outputJax entry (this w) document in
      match outputJax document entry (this w) document (store w) with
      | inr elt =>
          (mkWorld (MathItem.set__state STATE.TYPESET
                      (MathItem.set_typesetRoot (Some elt) (this w)))
                   (store w) (log w ++ [call]),
           Return tt)
      | inl e => (mkWorld (this w) (store w) (log w ++ [call]), Throw e)
      end
    else (w, Return tt).
Proof.
  unfold typeset. unfold mbind at 1. unfold M_bind at 1.
  rewrite state_None_run.
  destruct (MathItem._state (this w) <? STATE.TYPESET) eqn:Hlt;
    [|reflexivity].
  apply Z.ltb_lt in Hlt.
  destruct w as [it st lg]. run_M. item_simpl.
  destruct (outputJax document _ it document st) as [e|elt];
    [reflexivity|].
  rewrite state_forward_run by (item_simpl; lia). reflexivity.
Qed.

Lemma compile_twice (document : MathDocument) (w : World) :
  (compile document;; compile document) w = compile document w.
Proof.
  unfold mbind, M_bind. rewrite compile_run.
  destruct (MathItem._state (this w) <? STATE.COMPILED) eqn:Hlt.
  - cbn zeta.
    destruct (inputJax_compile _ _ _) as [e|node]; [reflexivity|].
    rewrite compile_run. reflexivity.
  - rewrite compile_run, Hlt. reflexivity.
Qed.

Lemma typeset_twice (document : MathDocument) (w : World) :
  (typeset document;; typeset document) w = typeset document w.
Proof.
  unfold mbind, M_bind. rewrite typeset_run.
  destruct (MathItem._state (this w) <? STATE.TYPESET) eqn:Hlt.
  - cbn zeta.
    destruct (outputJax _ _ _ _ _) as [e|elt]; [reflexivity|].
    rewrite typeset_run. reflexivity.
  - rewrite typeset_run, Hlt. reflexivity.
Qed.

Lemma inputJax_calls_snoc (lg : list Call) (c : Call) :
  inputJax_calls (lg ++ [c]) =
  (inputJax_calls lg + if is_inputJax_call c then 1 else 0)%nat.
Proof.
  unfold inputJax_calls. rewrite List.filter_app, length_app. cbn.
  destruct (is_inputJax_call c); reflexivity.
Qed.

Lemma outputJax_calls_snoc (lg : list Call) (c : Call) :
  outputJax_calls (lg ++ [c]) =
  (outputJax_calls lg + if is_outputJax_call c then 1 else 0)%nat.
Proof.
  unfold outputJax_calls. rewrite List.filter_app, length_app. cbn.
  destruct (is_outputJax_call c); reflexivity.
Qed.

(** C3.  On an item that is at or past COMPILED, [compile] changes nothing:
    the item (so [root] and the state), the store and the log are as
    before, and the log shows that the input jax was not invoked.  The
    same holds of [typeset], TYPESET, [typesetRoot] and the output jax.
    Hence two calls in a row (the second is reached when the first
    returns) do what one call does: the second adds nothing, [root]
    ([typesetRoot]) is the one the first call left, and the input jax
    (output jax) is invoked at most once in all. *)
Theorem compile_typeset_idempotent (document : MathDocument) (w : World) :
  (STATE.COMPILED <= MathItem._state (this w) ->
   compile document w = (w, Return tt)) /\
  (STATE.TYPESET <= MathItem._state (this w) ->
   typeset document w = (w, Return tt)) /\
  (let once := compile document w in
   let twice := (compile document;; compile document) w in
   twice = once /\
   MathItem.root (this twice.1) = MathItem.root (this once.1) /\
   (inputJax_calls (log twice.1) <= inputJax_calls (log w) + 1)%nat) /\
  (let once := typeset document w in
   let twice := (typeset document;; typeset document) w in
   twice = once /\
   MathItem.typesetRoot (this twice.1) = MathItem.typesetRoot (this once.1) /\
   (outputJax_calls (log twice.1) <= outputJax_calls (log w) + 1)%nat).
Proof.
  split; [|split; [|split]].
  - intros Hge. rewrite compile_run.
    destruct (_ <? _) eqn:Hlt; [apply Z.ltb_lt in Hlt; lia | reflexivity].
  - intros Hge. rewrite typeset_run.
    destruct (_ <? _) eqn:Hlt; [apply Z.ltb_lt in Hlt; lia | reflexivity].
  - cbn zeta. rewrite compile_twice. split; [reflexivity|].
    split; [reflexivity|]. rewrite compile_run.
    destruct (_ <? _); [|cbn; lia]. cbn zeta.
    destruct (inputJax_compile _ _ _); cbn [fst log];
      rewrite inputJax_calls_snoc; cbn; lia.
  - cbn zeta. rewrite typeset_twice. split; [reflexivity|].
    split; [reflexivity|]. rewrite typeset_run.
    destruct (_ <? _); [|cbn; lia]. cbn zeta.
    destruct (outputJax _ _ _ _ _); cbn [fst log];
      rewrite outputJax_calls_snoc; cbn; lia.
Qed.

(** C4.  When the input jax throws [e] on an UNPROCESSED item, [compile]
    throws that same [e]; the state is still UNPROCESSED, and the item as a
    whole is as it was, so [root] has the value it had: null if it was
    null. *)
Theorem compile_failure_propagates (document : MathDocument) (w : World)
    (e : Thrown) :
  MathItem._state (this w) = STATE.UNPROCESSED ->
  inputJax_compile (MathItem.inputJax (this w)) (this w) (store w) = inl e ->
  let w' := (compile document w).1 in
  (compile document w).2 = Throw e /\
  MathItem._state (this w') = STATE.UNPROCESSED /\
  this w' = this w /\
  store w' = store w /\
  (MathItem.root (this w) = None -> MathItem.root (this w') = None).
Proof.
  intros Hst Hfail. cbn zeta. rewrite compile_run, Hst, Hfail. cbn.
  repeat split; auto.
Qed.

(** C5.  On an item below TYPESET, [typeset] invokes the output jax of the
    document exactly once, with the item and the document, at the entry
    point [escaped] when [display] is null and [typeset] otherwise.  When
    that returns an element, [typeset] returns with the element in
    [typesetRoot] and the state at TYPESET.  (When it throws, [typeset]
    throws the same value and the item is as it was.) *)
Theorem typeset_below_TYPESET (document : MathDocument) (w : World) :
  MathItem._state (this w) < STATE.TYPESET ->
  let entry := match MathItem.display (this w) with
               | None => escaped
               | Some _ => typeset_entry
               end in
  let w' := (typeset document w).1 in
  log w' = log w ++ [call_outputJax entry (this w) document] /\
  (forall elt,
      outputJax document entry (this w) document (store w) = inr elt ->
      (typeset document w).2 = Return tt /\
      MathItem.typesetRoot (this w') = Some elt /\
      MathItem._state (this w') = STATE.TYPESET) /\
  (forall e,
      outputJax document entry (this w) document (store w) = inl e ->
      (typeset document w).2 = Throw e /\ this w' = this w).
Proof.
  intros Hlt. apply Z.ltb_lt in Hlt. cbn zeta.
  rewrite typeset_run, Hlt. cbn zeta.
  destruct (outputJax _ _ _ _ _) as [e|elt]; cbn;
    (split; [reflexivity|]); split; intros ? [= <-]; auto.
Qed.
End ForwardProperties.

(** C4 at work: the empty expression is rejected. *)
Lemma compile_failure_propagates_witness :
  let run := @compile sample_externals sample_collaborators sample_document
               sample_empty_item in
  run.2 = Throw (sample_thrown "ParseError") /\
  MathItem._state (this run.1) = STATE.UNPROCESSED /\
  MathItem.root (this run.1) = None.
Proof.
  cbn zeta.
  destruct (@compile_failure_propagates sample_externals sample_collaborators
              sample_document sample_empty_item (sample_thrown "ParseError")
              eq_refl eq_refl) as (Hthrow & Hstate & _ & _ & Hroot).
  split; [exact Hthrow|]. split; [exact Hstate|]. exact (Hroot eq_refl).
Defined.

(** C5 at work: the display mode of the empty sample item is null, so the
    [escaped] entry point is the one invoked. *)
Lemma typeset_below_TYPESET_witness :
  let run := @typeset sample_externals sample_collaborators sample_document
               sample_empty_item in
  log run.1 =
    [call_outputJax escaped (this sample_empty_item) sample_document] /\
  MathItem.typesetRoot (this run.1) = Some (sample_element "escaped:") /\
  MathItem._state (this run.1) = STATE.TYPESET.
Proof.
  cbn zeta.
  destruct (@typeset_below_TYPESET sample_externals sample_collaborators
              sample_document sample_empty_item eq_refl)
    as (Hlog & Hok & _).
  destruct (Hok (sample_element "escaped:") eq_refl) as (_ & Hroot & Hstate).
  split; [exact Hlog|]. split; [exact Hroot | exact Hstate].
Defined.

(** C1 at work: the inserted sample item is rolled back to UNPROCESSED,
    and is set to the state it is in. *)
Lemma state_cleanup_guards_witness :
  let w := sample_inserted in
  let w' := (@state sample_externals (Some STATE.UNPROCESSED) true w).1 in
  log w' = log w ++ [call_removeFromDocument (this w) true] /\
  MathItem._state (this w') = STATE.UNPROCESSED /\
  MathItem.bbox (this w') = 6%nat /\
  MathItem.outputData (this w') = 7%nat /\
  MathItem.inputData (this w') = 8%nat /\
  (@state sample_externals (Some STATE.INSERTED) true w).1 = w.
Proof.
  cbn zeta.
  destruct (@state_cleanup_guards sample_externals sample_inserted
              STATE.UNPROCESSED true)
    as (_ & Hstate & Hlog & (Hbbox & Hout & _) & (Hin & _) & _).
  destruct (@state_cleanup_guards sample_externals sample_inserted
              STATE.INSERTED true) as (_ & _ & _ & _ & _ & _ & _ & _ & _ & Hsame).
  split; [exact Hlog|]. split; [exact Hstate|].
  split; [exact Hbbox|]. split; [exact Hout|]. split; [exact Hin|].
  exact (Hsame eq_refl).
Defined.

(** C2 at work: the inserted sample item rolled back to UNPROCESSED. *)
Lemma state_keeps_roots_witness :
  let w := sample_inserted in
  let w' := (@state sample_externals (Some STATE.UNPROCESSED) true w).1 in
  MathItem._state (this w) = STATE.INSERTED /\
  MathItem.root (this w') = Some (sample_tree "mml:x^2") /\
  MathItem.typesetRoot (this w') = Some (sample_element "typeset:x^2") /\
  object_of w' (MathItem.bbox (this w')) = Some ∅.
Proof.
  cbn zeta.
  destruct (@state_keeps_roots sample_externals sample_inserted true)
    as [_ Hroll].
  specialize (Hroll eq_refl). cbn zeta in Hroll.
  destruct Hroll as (Hb & _ & _ & Hr & Ht).
  split; [reflexivity|].
  split; [rewrite Hr; reflexivity|].
  split; [rewrite Ht; reflexivity|].
  exact Hb.
Defined.

Section HookProperties.
Context `{Externals}.

(** C6, as the code has it.  [updateDocument] of AbstractMathItem has an
    empty body: in every state it returns normally and leaves the item, its
    state included, and the store as they were; nothing is thrown, also
    below TYPESET.  The state becomes INSERTED when [state(STATE.INSERTED)]
    is called after it. *)
Theorem updateDocument_is_empty (document : MathDocument) (w : World) :
  updateDocument document w =
    (mkWorld (this w) (store w)
             (log w ++ [call_updateDocument (this w) document]),
     Return tt) /\
  MathItem._state (this (updateDocument document w).1) =
    MathItem._state (this w) /\
  MathItem._state
    (this ((updateDocument document;;
            state (Some STATE.INSERTED) false) w).1) = STATE.INSERTED.
Proof.
  split; [reflexivity|]. split; [reflexivity|].
  unfold mbind, M_bind. cbn [updateDocument].
  change (updateDocument document w) with
    (mkWorld (this w) (store w)
             (log w ++ [call_updateDocument (this w) document]), Return tt).
  cbn iota. apply state_Some_state.
Qed.

(** C7, as the code has it.  [removeFromDocument] of AbstractMathItem has
    an empty body: it returns leaving the item, its state included, as it
    was, so the state is below INSERTED afterwards exactly when it was
    before.  It is [state(newState, restore)] with [newState] below INSERTED
    that brings the state below INSERTED: it stores [newState], after the
    call of [removeFromDocument(restore)] that it makes on an item at or
    above INSERTED. *)
Theorem removeFromDocument_is_empty (restore : bool) (w : World) :
  removeFromDocument restore w =
    (mkWorld (this w) (store w)
             (log w ++ [call_removeFromDocument (this w) restore]),
     Return tt) /\
  (MathItem._state (this (removeFromDocument restore w).1) < STATE.INSERTED
   <-> MathItem._state (this w) < STATE.INSERTED) /\
  (forall newState : Z,
      newState < STATE.INSERTED ->
      MathItem._state (this (state (Some newState) restore w).1)
      < STATE.INSERTED).
Proof.
  split; [reflexivity|]. split; [reflexivity|].
  intros newState Hlt. rewrite state_Some_state. exact Hlt.
Qed.

End HookProperties.

Section ProtoItemProperties.
Context `{Externals}.

(** C8.  [protoItem] copies its arguments: [open], [math], [close], [n] and
    [display] into the fields of the same name, the two offsets, whatever
    they are, into [start = {n: start}] and [end = {n: end}]; with the last
    argument left out, [display] is null. *)
Theorem protoItem_fields (open math close : string) (n start end_ : Z)
    (display : option bool) :
  let item := protoItem open math close n start end_ (Some display) in
  (ProtoItem.open item = Some open /\
   ProtoItem.math item = math /\
   ProtoItem.close item = Some close /\
   ProtoItem.n item = Some n /\
   ProtoItem.display item = display /\
   ProtoItem.start item =
     {| Location.i := None; Location.n := Some start;
        Location.delim := None; Location.node := None |} /\
   ProtoItem.end_ item =
     {| Location.i := None; Location.n := Some end_;
        Location.delim := None; Location.node := None |}) /\
  (let item' := protoItem open math close n start end_ None in
   ProtoItem.display item' = None /\
   ProtoItem.open item' = Some open /\
   ProtoItem.math item' = math /\
   ProtoItem.close item' = Some close /\
   ProtoItem.n item' = Some n /\
   ProtoItem.start item' = ProtoItem.start item /\
   ProtoItem.end_ item' = ProtoItem.end_ item).
Proof. cbn. repeat split; reflexivity. Qed.
End ProtoItemProperties.

(** C3 at work: the typeset sample item is compiled and typeset again. *)
Lemma compile_typeset_idempotent_witness :
  @compile sample_externals sample_collaborators sample_document
    sample_typeset = (sample_typeset, Return tt) /\
  @typeset sample_externals sample_collaborators sample_document
    sample_typeset = (sample_typeset, Return tt).
Proof.
  destruct (@compile_typeset_idempotent sample_externals sample_collaborators
              sample_document sample_typeset) as (Hc & Ht & _).
  split; [apply Hc | apply Ht]; discriminate.
Defined.

(** C6 as the claim has it fails: on the typeset sample item
    [updateDocument] succeeds and the state is not INSERTED afterwards, and
    on the new sample item, which is below TYPESET, it does not throw. *)
Lemma updateDocument_claim_counterexample :
  let run := @updateDocument sample_externals sample_document in
  ~ (STATE.TYPESET <= MathItem._state (this sample_typeset) ->
     (run sample_typeset).2 = Return tt ->
     MathItem._state (this (run sample_typeset).1) = STATE.INSERTED) /\
  ~ (MathItem._state (this sample_item) < STATE.TYPESET ->
     exists e, (run sample_item).2 = Throw e).
Proof.
  cbn zeta. split.
  - intros Hclaim. specialize (Hclaim ltac:(discriminate) eq_refl).
    discriminate Hclaim.
  - intros Hclaim. destruct (Hclaim eq_refl) as [e He]. discriminate He.
Qed.

(** C7 as the claim has it fails: [removeFromDocument] returns on the
    inserted sample item with the state still at INSERTED. *)
Lemma removeFromDocument_claim_counterexample :
  let run := @removeFromDocument sample_externals true sample_inserted in
  run.2 = Return tt /\
  MathItem._state (this run.1) = STATE.INSERTED /\
  ~ (MathItem._state (this run.1) < STATE.INSERTED).
Proof.
  cbn zeta. split; [reflexivity|]. split; [reflexivity|].
  intros Hlt. discriminate Hlt.
Qed.

(** C7 as amended, at work: the rollback of the inserted sample item. *)
Lemma removeFromDocument_is_empty_witness :
  MathItem._state
    (this (@state sample_externals (Some STATE.COMPILED) true
             sample_inserted).1) < STATE.INSERTED.
Proof.
  destruct (@removeFromDocument_is_empty sample_externals true
              sample_inserted) as (_ & _ & Hroll).
  apply Hroll. reflexivity.
Defined.

(** ** TexError *)

Section TexErrorProperties.

(** A match of [pattern] leaves less of the subject than it was given. *)
Lemma span_length (p : ascii -> bool) (s : string) :
  (String.length (TexError.span p s).1 + String.length (TexError.span p s).2
   = String.length s)%nat.
Proof.
  induction s as [|c s IH]; cbn; [reflexivity|].
  destruct (p c); [|reflexivity].
  destruct (TexError.span p s) as [a b]. cbn in *. lia.
Qed.

Lemma span1_length (p : ascii -> bool) (s found rest : string) :
  TexError.span1 p s = Some (found, rest) ->
  (String.length rest < String.length s)%nat.
Proof.
  unfold TexError.span1. pose proof (span_length p s) as Hlen.
  destruct (TexError.span p s) as [[|c a] b]; [discriminate|].
  intros [= <- <-]. cbn in Hlen. lia.
Qed.

Lemma consumed_Some (prefix : string) (m : option TexError.Match) (text rest : string) :
  TexError.consumed prefix m = Some (text, rest) ->
  exists text', m = Some (text', rest).
Proof. destruct m as [[text' rest']|]; [intros [= _ <-]; eauto | discriminate]. Qed.

Lemma or_else_Some (m next : option TexError.Match) (r : TexError.Match) :
  TexError.or_else m next = Some r -> m = Some r \/ next = Some r.
Proof. destruct m; cbn; auto. Qed.

Ltac ascii_cases c :=
  destruct c as [[] [] [] [] [] [] [] []]; cbn -[TexError.plural_options];
  try (intros; discriminate).

Lemma braced_number_length (s text rest : string) :
  TexError.braced_number s = Some (text, rest) ->
  (String.length rest < String.length s)%nat.
Proof.
  unfold TexError.braced_number. destruct s as [|c s1]; [discriminate|].
  ascii_cases c.
  destruct (TexError.span1 TexError.is_digit s1) as [[digits after]|] eqn:Hspan;
    [|discriminate].
  apply span1_length in Hspan.
  destruct after as [|c' rest']; [discriminate|].
  ascii_cases c'. intros [= _ <-]. cbn in *. lia.
Qed.

Lemma plural_options_length (fuel : nat) (s text rest : string) :
  TexError.plural_options fuel s = Some (text, rest) ->
  (String.length rest < String.length s)%nat.
Proof.
  revert s text rest.
  induction fuel as [|fuel IH]; intros s text rest; [discriminate|].
  cbn [TexError.plural_options]. intros Hm.
  repeat (apply or_else_Some in Hm; destruct Hm as [Hm|Hm]).
  - destruct s as [|c s1]; [discriminate|]. revert Hm. ascii_cases c.
    destruct (TexError.braced_number s1) as [[number after]|] eqn:Hb; [|discriminate].
    intros Hm. apply consumed_Some in Hm as [text' Hm].
    apply IH in Hm. apply braced_number_length in Hb. lia.
  - destruct s as [|c [|c' s1]]; [discriminate| |]; revert Hm; ascii_cases c.
    destruct (TexError.is_line_terminator c'); [discriminate|].
    intros Hm. apply consumed_Some in Hm as [text' Hm].
    apply IH in Hm. cbn. lia.
  - destruct s as [|c s1]; [discriminate|].
    destruct (Ascii.eqb c "}"); [discriminate|].
    apply consumed_Some in Hm as [text' Hm]. apply IH in Hm. cbn. lia.
  - destruct s as [|c s1]; [discriminate|]. revert Hm. ascii_cases c.
    intros Hm. apply consumed_Some in Hm as [text' Hm].
    apply IH in Hm. cbn. lia.
  - destruct s as [|c s1]; [discriminate|]. revert Hm. ascii_cases c.
    intros [= _ <-]. lia.
Qed.

(** Fuel above the length of the subject is never used up: the result does
    not depend on it. *)
Lemma plural_options_fuel (fuel fuel' : nat) (s : string) :
  (String.length s < fuel)%nat -> (String.length s < fuel')%nat ->
  TexError.plural_options fuel s = TexError.plural_options fuel' s.
Proof.
  revert fuel' s. induction fuel as [|fuel IH]; intros fuel' s Hf Hf'; [lia|].
  destruct fuel' as [|fuel']; [lia|].
  cbn [TexError.plural_options].
  assert (Hrec : forall rest, (String.length rest < String.length s)%nat ->
                 TexError.plural_options fuel rest = TexError.plural_options fuel' rest)
    by (intros rest Hr; apply IH; lia).
  f_equal; [|f_equal; [|f_equal; [|f_equal]]].
  - destruct s as [|c s1]; [reflexivity|]. ascii_cases c; try reflexivity.
    destruct (TexError.braced_number s1) as [[number after]|] eqn:Hb; [|reflexivity].
    apply braced_number_length in Hb. rewrite Hrec by (cbn; lia). reflexivity.
  - destruct s as [|c [|c' s1]]; try reflexivity.
    ascii_cases c; try reflexivity.
    destruct (TexError.is_line_terminator c'); [reflexivity|].
    rewrite Hrec by (cbn; lia). reflexivity.
  - destruct s as [|c s1]; [reflexivity|].
    destruct (Ascii.eqb c "}"); [reflexivity|].
    rewrite Hrec by (cbn; lia). reflexivity.
  - destruct s as [|c s1]; [reflexivity|]. ascii_cases c; try reflexivity.
    rewrite Hrec by (cbn; lia). reflexivity.
Qed.

Lemma pattern_length (s group rest : string) :
  TexError.pattern s = Some (group, rest) ->
  (S (String.length rest) < String.length s)%nat.
Proof.
  unfold TexError.pattern. destruct s as [|c s1]; [discriminate|]. ascii_cases c.
  unfold TexError.pattern_group. intros Hm.
  repeat (apply or_else_Some in Hm; destruct Hm as [Hm|Hm]).
  - apply span1_length in Hm. lia.
  - apply braced_number_length in Hm. lia.
  - unfold TexError.plural_form in Hm. destruct s1 as [|c s2]; [discriminate|].
    revert Hm. ascii_cases c.
    destruct (TexError.span1 TexError.is_lower s2) as [[name after]|] eqn:Hn; [|discriminate].
    apply span1_length in Hn.
    destruct after as [|c1 [|c2 s3]]; try discriminate.
    { ascii_cases c1. }
    ascii_cases c1. ascii_cases c2.
    destruct (TexError.span1 TexError.is_digit s3) as [[digits after]|] eqn:Hd; [|discriminate].
    apply span1_length in Hd.
    destruct after as [|c3 s4]; [discriminate|]. ascii_cases c3.
    intros Hm. apply consumed_Some in Hm as [text' Hm].
    apply plural_options_length in Hm. cbn in *. lia.
  - destruct s1 as [|c s2]; [discriminate|].
    destruct (TexError.is_line_terminator c); [discriminate|].
    injection Hm as _ <-. cbn. lia.
Qed.

Lemma split_from_fuel (fuel fuel' : nat) (piece s : string) :
  (String.length s < fuel)%nat -> (String.length s < fuel')%nat ->
  TexError.split_from fuel piece s = TexError.split_from fuel' piece s.
Proof.
  revert fuel' piece s.
  induction fuel as [|fuel IH]; intros fuel' piece s Hf Hf'; [lia|].
  destruct fuel' as [|fuel']; [lia|].
  cbn [TexError.split_from]. destruct s as [|c s']; [reflexivity|].
  destruct (TexError.pattern (String c s')) as [[group rest]|] eqn:Hp.
  - apply pattern_length in Hp. cbn in *.
    rewrite (IH fuel') by lia. reflexivity.
  - cbn in *. apply IH; lia.
Qed.

(** [split] could be given any fuel above the length of the string. *)
Lemma split_fuel (fuel : nat) (str : string) :
  (String.length str < fuel)%nat ->
  TexError.split str = TexError.split_from fuel EmptyString str.
Proof. intros Hf. unfold TexError.split. apply split_from_fuel; lia. Qed.
End TexErrorProperties.

Example split_percent_number :
  TexError.split "Missing argument for %1" = ["Missing argument for "; "1"; EmptyString]%string.
Proof. reflexivity. Qed.

Example split_plural_backtracks :
  TexError.split "%{plural:%1|o%}ne|two" = [EmptyString; "{plural:%1|o%}"; "ne|two"]%string.
Proof. reflexivity. Qed.

Example split_unclosed_plural :
  TexError.split "%{plural:%1|o%" = [EmptyString; "{"; "plural:"; "1"; "|o%"]%string.
Proof. reflexivity. Qed.

Example processString_arguments :
  TexError.processString "Extra %1 or missing %2, %{1}, %{9}, %3, %0, 100%%"
                         ["\left"; "\right"]%string
  = "Extra \left or missing \right, \left, {9}, ???, ???, 100%"%string.
Proof. reflexivity. Qed.

Example processString_plural :
  TexError.processString "%{plural:%1|one|two} left" ["1"]%string
  = "%{plural:%1|one|two} left"%string.
Proof. reflexivity. Qed.

(** C10.  With fewer than two elements in [input], the constructor sets
    [message] to the empty string and leaves [id] unset.  With two or more,
    [id] is [input[0]] and [message] is [processString(input[1],
    input.slice(2))]. *)
Theorem TexError_constructor_cases (input : list string) :
  ((length input < 2)%nat ->
   TexError.constructor input =
     {| TexError.id := None; TexError.message := EmptyString |}) /\
  ((2 <= length input)%nat ->
   exists id str : string,
     input !! 0%nat = Some id /\ input !! 1%nat = Some str /\
     TexError.constructor input =
       {| TexError.id := Some id;
          TexError.message := TexError.processString str (drop 2 input) |}).
Proof.
  unfold TexError.constructor. split; intros Hlen.
  - destruct (1 <? Z.of_nat (length input)) eqn:E; [|reflexivity].
    apply Z.ltb_lt in E. lia.
  - destruct input as [|id [|str rest]]; cbn in Hlen; try lia.
    exists id, str. split; [reflexivity|]. split; [reflexivity|].
    destruct (1 <? Z.of_nat (length (id :: str :: rest))) eqn:E;
      [reflexivity|].
    apply Z.ltb_ge in E. cbn [length] in E. lia.
Qed.

(** C10 at work. *)
Lemma TexError_constructor_cases_witness :
  TexError.constructor ["MissingArgFor"]%string =
    {| TexError.id := None; TexError.message := EmptyString |} /\
  TexError.constructor
    ["MissingArgFor"; "Missing argument for %1"; "\frac"]%string =
    {| TexError.id := Some "MissingArgFor"%string;
       TexError.message := "Missing argument for \frac" |}.
Proof.
  split.
  - apply (proj1 (TexError_constructor_cases ["MissingArgFor"]%string)).
    cbn. lia.
  - destruct (proj2 (TexError_constructor_cases
                       ["MissingArgFor"; "Missing argument for %1";
                        "\frac"]%string))
      as (id & str & Hid & Hstr & Hnew); [cbn; lia|].
    injection Hid as <-. injection Hstr as <-. rewrite Hnew. reflexivity.
Defined.

(** * Further properties of AbstractMathItem *)

Section LifeCycleProperties.
Context `{Collaborators}.

Lemma leaves_false level newState cur :
  leaves level newState cur = false <-> ~ (newState < level <= cur).
Proof.
  rewrite <- leaves_spec. destruct (leaves level newState cur);
    split; intros; try congruence; tauto.
Qed.

Lemma bind_run {A B : Type} (m : M A) (k : A -> M B) (w : World) :
  (m ≫= k) w =
  match m w with
  | (w', Return a) => k a w'
  | (w', Throw e) => (w', Throw e)
  end.
Proof. reflexivity. Qed.

(** X1.  On an item below COMPILED, [compile] invokes the input jax of the
    item exactly once, with the item as it is.  When that returns a tree,
    [compile] returns with the tree in [root] and the state at COMPILED;
    every other field, and the store, are as before. *)
Theorem compile_below_COMPILED (document : MathDocument) (w : World) :
  MathItem._state (this w) < STATE.COMPILED ->
  let w' := (compile document w).1 in
  log w' = log w ++
           [call_inputJax_compile (MathItem.inputJax (this w)) (this w)] /\
  store w' = store w /\
  (forall node,
      inputJax_compile (MathItem.inputJax (this w)) (this w) (store w)
      = inr node ->
      (compile document w).2 = Return tt /\
      MathItem.root (this w') = Some node /\
      MathItem._state (this w') = STATE.COMPILED /\
      this w' = MathItem.set__state STATE.COMPILED
                  (MathItem.set_root (Some node) (this w))).
Proof.
  intros Hlt. apply Z.ltb_lt in Hlt. cbn zeta.
  rewrite compile_run, Hlt. cbn zeta.
  destruct (inputJax_compile _ _ _) as [e|node]; cbn;
    (split; [reflexivity|]); (split; [reflexivity|]);
    intros ? [= <-]; auto.
Qed.

(** X2.  [compile] and [typeset] never lower the state, whatever it is and
    whether they return or throw; and when they return, the state is at
    least COMPILED, respectively at least TYPESET. *)
Theorem forward_never_lowers (document : MathDocument) (w : World) :
  (MathItem._state (this w) <= MathItem._state (this (compile document w).1) /\
   ((compile document w).2 = Return tt ->
    STATE.COMPILED <= MathItem._state (this (compile document w).1))) /\
  (MathItem._state (this w) <= MathItem._state (this (typeset document w).1) /\
   ((typeset document w).2 = Return tt ->
    STATE.TYPESET <= MathItem._state (this (typeset document w).1))).
Proof.
  rewrite compile_run, typeset_run. split.
  - destruct (_ <? STATE.COMPILED) eqn:Hlt;
      [apply Z.ltb_lt in Hlt | apply Z.ltb_ge in Hlt]; cbn zeta.
    + destruct (inputJax_compile _ _ _); cbn; unfold STATE.COMPILED in *;
        split; try lia; discriminate.
    + cbn. split; [lia | intros _; exact Hlt].
  - destruct (_ <? STATE.TYPESET) eqn:Hlt;
      [apply Z.ltb_lt in Hlt | apply Z.ltb_ge in Hlt]; cbn zeta.
    + destruct (outputJax _ _ _ _ _); cbn; unfold STATE.TYPESET in *;
        split; try lia; discriminate.
    + cbn. split; [lia | intros _; exact Hlt].
Qed.

(** X3.  [typeset] does not compile: it never invokes the input jax and
    never assigns [root]; so on a new item, UNPROCESSED with a null
    [root], a [typeset] that succeeds leaves the item at TYPESET with
    [root] still null.  Likewise [compile] never invokes the output jax and
    never assigns [typesetRoot]. *)
Theorem typeset_does_not_compile (document : MathDocument) (w : World) :
  (MathItem.root (this (typeset document w).1) = MathItem.root (this w) /\
   inputJax_calls (log (typeset document w).1) = inputJax_calls (log w)) /\
  (MathItem.typesetRoot (this (compile document w).1)
     = MathItem.typesetRoot (this w) /\
   outputJax_calls (log (compile document w).1) = outputJax_calls (log w)) /\
  (MathItem._state (this w) = STATE.UNPROCESSED ->
   MathItem.root (this w) = None ->
   (typeset document w).2 = Return tt ->
   MathItem._state (this (typeset document w).1) = STATE.TYPESET /\
   MathItem.root (this (typeset document w).1) = None).
Proof.
  rewrite compile_run, typeset_run. split; [|split].
  - destruct (_ <? STATE.TYPESET); [|split; reflexivity]. cbn zeta.
    destruct (outputJax _ _ _ _ _); item_simpl;
      rewrite inputJax_calls_snoc; cbn; split; (reflexivity || lia).
  - destruct (_ <? STATE.COMPILED); [|split; reflexivity]. cbn zeta.
    destruct (inputJax_compile _ _ _); item_simpl;
      rewrite outputJax_calls_snoc; cbn; split; (reflexivity || lia).
  - intros Hst Hroot. rewrite Hst. cbn.
    destruct (outputJax _ _ _ _ _); cbn; [discriminate|].
    intros _. split; [reflexivity | exact Hroot].
Qed.

(** X4.  Setting a state twice is setting it once: the second call finds the
    item in that state, fires no guard and changes nothing. *)
Theorem state_twice (w : World) (newState : Z) (restore : bool) :
  (state (Some newState) restore;; state (Some newState) restore) w
  = state (Some newState) restore w.
Proof.
  rewrite bind_run.
  destruct (state (Some newState) restore w) as [w1 r] eqn:E.
  pose proof (state_Some_state w newState restore) as Hs.
  pose proof (state_Some_run w newState restore) as Hr. cbn zeta in Hr.
  rewrite E in Hs, Hr. cbn [fst] in Hs. injection Hr as Hw1 ->.
  rewrite state_forward_run by lia. rewrite <- Hs at 1.
  rewrite set__state_same. destruct w1; reflexivity.
Qed.

(** X5.  A rollback can be made in steps: from an item at [cur], going down
    to [a] and then to [b] leaves the same item and the same store as going
    down to [b] at once, and returns [b] as well. *)
Theorem rollback_in_steps (w : World) (a b : Z) (restore : bool) :
  b <= a -> a <= MathItem._state (this w) ->
  let steps := (state (Some a) restore;; state (Some b) restore) w in
  let once := state (Some b) restore w in
  this steps.1 = this once.1 /\
  store steps.1 = store once.1 /\
  steps.2 = once.2.
Proof.
  intros Hba Hac. cbn zeta. rewrite bind_run.
  rewrite (state_Some_run w a). cbn zeta.
  rewrite !state_Some_run. item_simpl.
  set (cur := MathItem._state (this w)) in *.
  destruct (leaves STATE.TYPESET a cur) eqn:Ta;
  destruct (leaves STATE.COMPILED a cur) eqn:Ca;
  destruct (leaves STATE.TYPESET b a) eqn:Tba;
  destruct (leaves STATE.COMPILED b a) eqn:Cba;
  destruct (leaves STATE.TYPESET b cur) eqn:Tb;
  destruct (leaves STATE.COMPILED b cur) eqn:Cb;
  rewrite ?leaves_spec, ?leaves_false in *;
  unfold STATE.TYPESET, STATE.COMPILED in *;
  try (exfalso; lia);
  item_simpl; rewrite ?length_app; cbn [length app];
  rewrite <- ?app_assoc, ?app_nil_r, ?Nat.add_0_r; cbn [app];
  (split; [|split; reflexivity]);
  unfold MathItem.set__state, MathItem.set_inputData,
    MathItem.set_outputData, MathItem.set_bbox; cbn;
  repeat f_equal; lia.
Qed.


(** X7.  [compile] goes by the state, not by [root]: after a rollback to
    UNPROCESSED the next [compile] invokes the input jax again, on the
    rolled-back item (which still has its old [root]), and a tree it
    returns replaces the old one. *)
Theorem rollback_then_compile (document : MathDocument) (w : World)
    (restore : bool) :
  let rolled := (state (Some STATE.UNPROCESSED) restore w).1 in
  let w' := ((state (Some STATE.UNPROCESSED) restore;;
              compile document) w).1 in
  MathItem.root (this rolled) = MathItem.root (this w) /\
  log w' = log rolled ++
           [call_inputJax_compile (MathItem.inputJax (this w)) (this rolled)] /\
  (forall node,
      inputJax_compile (MathItem.inputJax (this w)) (this rolled)
                       (store rolled) = inr node ->
      MathItem.root (this w') = Some node /\
      MathItem._state (this w') = STATE.COMPILED).
Proof.
  cbn zeta. rewrite bind_run.
  pose proof (state_Some_state w STATE.UNPROCESSED restore) as Hst.
  assert (Hjax : MathItem.inputJax
                   (this (state (Some STATE.UNPROCESSED) restore w).1)
                 = MathItem.inputJax (this w) /\
                 MathItem.root
                   (this (state (Some STATE.UNPROCESSED) restore w).1)
                 = MathItem.root (this w)).
  { rewrite state_Some_run. item_simpl.
    destruct (leaves STATE.COMPILED _ _), (leaves STATE.TYPESET _ _);
      split; reflexivity. }
  destruct Hjax as [Hjax Hroot].
  destruct (state (Some STATE.UNPROCESSED) restore w) as [rolled r] eqn:E.
  pose proof (state_Some_run w STATE.UNPROCESSED restore) as Hr.
  cbn zeta in Hr. rewrite E in Hr. injection Hr as _ ->.
  cbn [fst] in *. rewrite compile_run, Hst, Hjax.
  change (STATE.UNPROCESSED <? STATE.COMPILED) with true. cbn iota zeta.
  split; [exact Hroot|].
  destruct (inputJax_compile _ _ _) as [e|node']; cbn;
    (split; [reflexivity|]); intros ? [= <-]; auto.
Qed.

(** What a call does to the store and to the log. *)
Lemma after_do_state (s : option Z) (restore : bool) (w : World) :
  after (do_state s restore) w = (state s restore w).1.
Proof.
  unfold after, invoke. rewrite bind_run.
  destruct s as [s|].
  - rewrite state_Some_run. reflexivity.
  - rewrite state_None_run. reflexivity.
Qed.


Lemma containers_apart_after (m : Method) (w : World) :
  containers_apart w -> containers_apart (after m w).
Proof.
  unfold containers_apart.
  destruct m as [document|document| |document|restore|em ex cw lw sc|s restore].
  - unfold after, invoke. rewrite compile_run.
    destruct (_ <? _); [cbn zeta; destruct (inputJax_compile _ _ _)|];
      item_simpl; auto.
  - unfold after, invoke. rewrite typeset_run.
    destruct (_ <? _); [cbn zeta; destruct (outputJax _ _ _ _ _)|];
      item_simpl; auto.
  - auto.
  - auto.
  - auto.
  - auto.
  - rewrite after_do_state. destruct s as [s|].
    + rewrite state_Some_run.
      destruct (leaves STATE.TYPESET _ _), (leaves STATE.COMPILED _ _);
        item_simpl; rewrite ?length_app; cbn [length app]; lia.
    + rewrite state_None_run. auto.
Qed.

(** X9.  Whatever calls are made on a new item, in whatever order and
    whether they return or throw, [bbox], [inputData] and [outputData]
    point to three different objects of the store: no container is
    dangling and no two are the same object. *)
Theorem containers_stay_apart (math : string) (jax : InputJax)
    (display : option (option bool)) (start end_ : option Location.t)
    (objects : list OptionList) (ms : list Method) :
  containers_apart
    (after_all ms (constructor math jax display start end_ objects)).
Proof.
  assert (Hnew : containers_apart
                   (constructor math jax display start end_ objects)).
  { unfold containers_apart, constructor. item_simpl.
    rewrite length_app. cbn. lia. }
  revert Hnew. generalize (constructor math jax display start end_ objects).
  unfold after_all. induction ms as [|m ms IH]; intros w Hw; [exact Hw|].
  cbn [fold_left]. apply IH, containers_apart_after, Hw.
Qed.

Lemma state_tells_after (m : Method) (w : World) :
  sets_state m = false -> state_tells w -> state_tells (after m w).
Proof.
  unfold state_tells.
  destruct m as [document|document| |document|restore|em ex cw lw sc|s restore];
    intros Hm Hw.
  - unfold after, invoke. rewrite compile_run.
    destruct Hw as [(Hs & Hr & Ht)|[(Hs & Hr & Ht)|(Hs & Ht)]]; rewrite Hs.
    + change (STATE.UNPROCESSED <? STATE.COMPILED) with true. cbn zeta iota.
      destruct (inputJax_compile _ _ _); item_simpl; [left; auto|].
      right; left. repeat split; auto; discriminate.
    + right; left. auto.
    + right; right. auto.
  - unfold after, invoke. rewrite typeset_run.
    destruct Hw as [(Hs & Hr & Ht)|[(Hs & Hr & Ht)|(Hs & Ht)]]; rewrite Hs.
    + change (STATE.UNPROCESSED <? STATE.TYPESET) with true. cbn zeta iota.
      destruct (outputJax _ _ _ _ _); item_simpl; [left; auto|].
      right; right. split; [reflexivity | discriminate].
    + change (STATE.COMPILED <? STATE.TYPESET) with true. cbn zeta iota.
      destruct (outputJax _ _ _ _ _); item_simpl; [right; left; auto|].
      right; right. split; [reflexivity | discriminate].
    + right; right. auto.
  - exact Hw.
  - exact Hw.
  - exact Hw.
  - exact Hw.
  - destruct s as [s|]; [discriminate|].
    rewrite after_do_state, state_None_run. exact Hw.
Qed.

(** X10.  As long as no call sets the state from outside, the state tells
    what a new item holds: it is UNPROCESSED with [root] and [typesetRoot]
    null, or COMPILED with a [root] and a null [typesetRoot], or TYPESET
    with a [typesetRoot]; in particular it never reaches INSERTED. *)
Theorem state_tells_without_state_calls (math : string) (jax : InputJax)
    (display : option (option bool)) (start end_ : option Location.t)
    (objects : list OptionList) (ms : list Method) :
  forallb (fun m => negb (sets_state m)) ms = true ->
  let w := after_all ms (constructor math jax display start end_ objects) in
  state_tells w /\ MathItem._state (this w) < STATE.INSERTED.
Proof.
  intros Hms. cbn zeta.
  assert (Htells : state_tells
            (after_all ms (constructor math jax display start end_ objects))).
  { assert (Hnew : state_tells
                     (constructor math jax display start end_ objects))
      by (left; repeat split; reflexivity).
    revert Hnew Hms.
    generalize (constructor math jax display start end_ objects).
    unfold after_all. induction ms as [|m ms IH]; intros w Hw Hms;
      [exact Hw|].
    cbn [forallb] in Hms. apply andb_true_iff in Hms as [Hm Hms].
    cbn [fold_left]. apply IH; [|exact Hms].
    apply state_tells_after; [|exact Hw].
    destruct (sets_state m); [discriminate | reflexivity]. }
  split; [exact Htells|].
  destruct Htells as [(Hs & _)|[(Hs & _)|(Hs & _)]]; rewrite Hs; reflexivity.
Qed.

Lemma roots_kept (w w' : World) (calls : list Call) :
  MathItem.root (this w') = MathItem.root (this w) ->
  MathItem.typesetRoot (this w') = MathItem.typesetRoot (this w) ->
  log w' = log w ++ calls ->
  roots_come_from_calls w -> roots_come_from_calls w'.
Proof.
  intros Hr Ht Hl [Hroot Htypeset]. split.
  - intros node Hnode. rewrite Hr in Hnode.
    destruct (Hroot node Hnode) as (self & objects & Hin & Hret).
    exists self, objects. rewrite Hl, in_app_iff. auto.
  - intros elt Helt. rewrite Ht in Helt.
    destruct (Htypeset elt Helt) as (entry & self & doc & objects & Hin & Hret).
    exists entry, self, doc, objects. rewrite Hl, in_app_iff. auto.
Qed.

Lemma roots_come_from_calls_after (m : Method) (w : World) :
  roots_come_from_calls w -> roots_come_from_calls (after m w).
Proof.
  intros Hw.
  destruct m as [document|document| |document|restore|em ex cw lw sc|s restore].
  - unfold after, invoke. rewrite compile_run.
    destruct (_ <? _); [cbn zeta|exact Hw].
    destruct (inputJax_compile _ _ _) as [e|node] eqn:Hret; cbn [fst].
    + eapply roots_kept; [| | |exact Hw]; reflexivity.
    + destruct Hw as [_ Htypeset]. split; item_simpl.
      * intros node' [= <-]. exists (this w), (store w).
        rewrite in_app_iff. split; [right; left; reflexivity | exact Hret].
      * intros elt Helt.
        destruct (Htypeset elt Helt) as (entry & self & doc & objs & Hin & Hr).
        exists entry, self, doc, objs. rewrite in_app_iff. auto.
  - unfold after, invoke. rewrite typeset_run.
    destruct (_ <? _); [cbn zeta|exact Hw].
    destruct (outputJax _ _ _ _ _) as [e|elt] eqn:Hret; cbn [fst].
    + eapply roots_kept; [| | |exact Hw]; reflexivity.
    + destruct Hw as [Hroot _]. split; item_simpl.
      * intros node Hnode.
        destruct (Hroot node Hnode) as (self & objs & Hin & Hr).
        exists self, objs. rewrite in_app_iff. auto.
      * intros elt' [= <-]. eexists _, (this w), document, (store w).
        rewrite in_app_iff. split; [right; left; reflexivity | exact Hret].
  - eapply roots_kept; [| | |exact Hw]; reflexivity.
  - eapply roots_kept; [| | |exact Hw]; reflexivity.
  - eapply roots_kept; [| | |exact Hw]; reflexivity.
  - eapply (roots_kept _ _ []); [| | |exact Hw];
      [reflexivity | reflexivity | cbn; symmetry; apply app_nil_r].
  - rewrite after_do_state. destruct s as [s|].
    + rewrite state_Some_run. cbn [fst].
      eapply roots_kept; [| | |exact Hw]; item_simpl; [| |reflexivity];
        destruct (leaves STATE.COMPILED _ _), (leaves STATE.TYPESET _ _);
        reflexivity.
    + rewrite state_None_run. exact Hw.
Qed.

(** X11.  Whatever calls are made on a new item, a non-null [root] is a
    tree that the input jax returned in a call that is in the log, and a
    non-null [typesetRoot] an element that the output jax returned in a
    call that is in the log: the item never holds a tree or an element of
    another origin. *)
Theorem roots_have_an_origin (math : string) (jax : InputJax)
    (display : option (option bool)) (start end_ : option Location.t)
    (objects : list OptionList) (ms : list Method) :
  roots_come_from_calls
    (after_all ms (constructor math jax display start end_ objects)).
Proof.
  assert (Hnew : roots_come_from_calls
                   (constructor math jax display start end_ objects))
    by (split; intros ? [=]).
  revert Hnew. generalize (constructor math jax display start end_ objects).
  unfold after_all. induction ms as [|m ms IH]; intros w Hw; [exact Hw|].
  cbn [fold_left]. apply IH, roots_come_from_calls_after, Hw.
Qed.
End LifeCycleProperties.

(** X1 at work: the new sample item is compiled. *)
Lemma compile_below_COMPILED_witness :
  let run := @compile sample_externals sample_collaborators sample_document
               sample_item in
  log run.1 = [call_inputJax_compile sample_jax (this sample_item)] /\
  MathItem.root (this run.1) = Some (sample_tree "mml:x^2") /\
  MathItem._state (this run.1) = STATE.COMPILED.
Proof.
  cbn zeta.
  destruct (@compile_below_COMPILED sample_externals sample_collaborators
              sample_document sample_item eq_refl) as (Hlog & _ & Hok).
  destruct (Hok (sample_tree "mml:x^2") eq_refl) as (_ & Hroot & Hstate & _).
  split; [exact Hlog|]. split; [exact Hroot | exact Hstate].
Defined.

(** X3 at work: the new sample item is typeset at once. *)
Lemma typeset_does_not_compile_witness :
  let run := @typeset sample_externals sample_collaborators sample_document
               sample_item in
  MathItem._state (this run.1) = STATE.TYPESET /\
  MathItem.root (this run.1) = None.
Proof.
  cbn zeta.
  destruct (@typeset_does_not_compile sample_externals sample_collaborators
              sample_document sample_item) as (_ & _ & Hnew).
  exact (Hnew eq_refl eq_refl eq_refl).
Defined.

(** X5 at work: the inserted sample item goes down to COMPILED, then to
    UNPROCESSED. *)
Lemma rollback_in_steps_witness :
  let steps := (@state sample_externals (Some STATE.COMPILED) true;;
                @state sample_externals (Some STATE.UNPROCESSED) true)
                 sample_inserted in
  let once := @state sample_externals (Some STATE.UNPROCESSED) true
                sample_inserted in
  this steps.1 = this once.1 /\ store steps.1 = store once.1 /\
  steps.2 = once.2.
Proof.
  apply (@rollback_in_steps sample_externals
           sample_inserted STATE.COMPILED STATE.UNPROCESSED true);
    discriminate.
Defined.


(** X7 at work: the typeset sample item is rolled back and compiled
    again. *)
Lemma rollback_then_compile_witness :
  let w' := ((@state sample_externals (Some STATE.UNPROCESSED) false;;
              @compile sample_externals sample_collaborators sample_document)
               sample_typeset).1 in
  inputJax_calls (log sample_typeset) = 1%nat /\
  inputJax_calls (log w') = 2%nat /\
  MathItem._state (this w') = STATE.COMPILED.
Proof.
  cbn zeta.
  destruct (@rollback_then_compile sample_externals sample_collaborators
              sample_document sample_typeset false) as (_ & Hlog & Hok).
  destruct (Hok (sample_tree "mml:x^2") eq_refl) as (_ & Hstate).
  split; [reflexivity|]. split; [rewrite Hlog; reflexivity | exact Hstate].
Defined.

(** X10 at work: the sample item after a forward pass and the hooks. *)
Lemma state_tells_without_state_calls_witness :
  let w := @after_all sample_externals sample_collaborators
             [do_compile sample_document; do_typeset sample_document;
              do_addEventHandlers; do_updateDocument sample_document;
              do_removeFromDocument true]
             sample_item in
  state_tells w /\ MathItem._state (this w) < STATE.INSERTED.
Proof.
  exact (@state_tells_without_state_calls sample_externals
           sample_collaborators "x^2"%string sample_jax (Some (Some false))
           None None []
           [do_compile sample_document; do_typeset sample_document;
            do_addEventHandlers; do_updateDocument sample_document;
            do_removeFromDocument true] eq_refl).
Defined.

(** * Further properties of TexError *)

Section MessageProperties.

Ltac char_cases c :=
  destruct c as [[] [] [] [] [] [] [] []];
  cbn -[TexError.plural_options TexError.split TexError.processString];
  try (intros; discriminate).

Lemma append_cons (c : ascii) (s t : string) :
  String c s +:+ t = String c (s +:+ t).
Proof. reflexivity. Qed.

Lemma append_nil_l (t : string) : EmptyString +:+ t = t.
Proof. reflexivity. Qed.

Lemma append_nil_r (s : string) : s +:+ EmptyString = s.
Proof.
  induction s as [|c s IH]; [reflexivity|].
  rewrite append_cons, IH. reflexivity.
Qed.

Lemma append_assoc (a b c : string) : (a +:+ b) +:+ c = a +:+ (b +:+ c).
Proof.
  induction a as [|x a IH]; [reflexivity|].
  rewrite !append_cons, IH. reflexivity.
Qed.

Ltac app_simpl :=
  repeat first [ rewrite append_cons | rewrite append_nil_l
               | rewrite append_assoc | rewrite append_nil_r ].

Lemma span_append (p : ascii -> bool) (s : string) :
  (TexError.span p s).1 +:+ (TexError.span p s).2 = s.
Proof.
  induction s as [|c s IH]; cbn; [reflexivity|].
  destruct (p c); [|reflexivity].
  destruct (TexError.span p s) as [a b]. cbn [fst snd] in *.
  rewrite append_cons, IH. reflexivity.
Qed.

Lemma span1_append (p : ascii -> bool) (s found rest : string) :
  TexError.span1 p s = Some (found, rest) ->
  s = found +:+ rest /\ found <> EmptyString.
Proof.
  unfold TexError.span1. pose proof (span_append p s) as Happ.
  destruct (TexError.span p s) as [[|c a] b]; [discriminate|].
  intros [= <- <-]. split; [symmetry; exact Happ | discriminate].
Qed.

Lemma consumed_append (prefix : string) (m : option TexError.Match)
    (text rest : string) :
  TexError.consumed prefix m = Some (text, rest) ->
  exists text', m = Some (text', rest) /\ text = prefix +:+ text'.
Proof.
  destruct m as [[text' rest']|]; [|discriminate].
  intros [= <- <-]. eauto.
Qed.

Lemma braced_number_append (s text rest : string) :
  TexError.braced_number s = Some (text, rest) ->
  s = text +:+ rest /\ text <> EmptyString.
Proof.
  unfold TexError.braced_number. destruct s as [|c s1]; [discriminate|].
  char_cases c.
  destruct (TexError.span1 TexError.is_digit s1) as [[digits after]|] eqn:Hs;
    [|discriminate].
  apply span1_append in Hs as [-> _].
  destruct after as [|c' rest']; [discriminate|].
  char_cases c'. intros [= <- <-]. split; [|discriminate].
  app_simpl. reflexivity.
Qed.

Lemma plural_options_append (fuel : nat) (s text rest : string) :
  TexError.plural_options fuel s = Some (text, rest) -> s = text +:+ rest.
Proof.
  revert s text rest.
  induction fuel as [|fuel IH]; intros s text rest; [discriminate|].
  cbn [TexError.plural_options]. intros Hm.
  repeat (apply or_else_Some in Hm; destruct Hm as [Hm|Hm]).
  - destruct s as [|c s1]; [discriminate|]. revert Hm. char_cases c.
    destruct (TexError.braced_number s1) as [[number after]|] eqn:Hb;
      [|discriminate].
    intros Hm. apply consumed_append in Hm as (text' & Hm & ->).
    apply IH in Hm as ->. apply braced_number_append in Hb as [-> _].
    app_simpl. reflexivity.
  - destruct s as [|c [|c' s1]]; [discriminate| |]; revert Hm; char_cases c.
    destruct (TexError.is_line_terminator c'); [discriminate|].
    intros Hm. apply consumed_append in Hm as (text' & Hm & ->).
    apply IH in Hm as ->. reflexivity.
  - destruct s as [|c s1]; [discriminate|].
    destruct (Ascii.eqb c "}"); [discriminate|].
    apply consumed_append in Hm as (text' & Hm & ->).
    apply IH in Hm as ->. reflexivity.
  - destruct s as [|c s1]; [discriminate|]. revert Hm. char_cases c.
    intros Hm. apply consumed_append in Hm as (text' & Hm & ->).
    apply IH in Hm as ->. reflexivity.
  - destruct s as [|c s1]; [discriminate|]. revert Hm. char_cases c.
    intros [= <- <-]. reflexivity.
Qed.

(** A match of [pattern] is a percent sign, then the group, which is not
    empty, then the rest. *)
Lemma pattern_append (s group rest : string) :
  TexError.pattern s = Some (group, rest) ->
  s = String "%" (group +:+ rest) /\ group <> EmptyString.
Proof.
  unfold TexError.pattern. destruct s as [|c s1]; [discriminate|].
  char_cases c. unfold TexError.pattern_group. intros Hm.
  repeat (apply or_else_Some in Hm; destruct Hm as [Hm|Hm]).
  - apply span1_append in Hm as [-> Hne]. auto.
  - apply braced_number_append in Hm as [-> Hne]. auto.
  - unfold TexError.plural_form in Hm.
    destruct s1 as [|c s2]; [discriminate|]. revert Hm. char_cases c.
    destruct (TexError.span1 TexError.is_lower s2) as [[name after]|] eqn:Hn;
      [|discriminate].
    apply span1_append in Hn as [-> _].
    destruct after as [|c1 [|c2 s3]]; try discriminate.
    { char_cases c1. }
    char_cases c1. char_cases c2.
    destruct (TexError.span1 TexError.is_digit s3) as [[digits after]|] eqn:Hd;
      [|discriminate].
    apply span1_append in Hd as [-> _].
    destruct after as [|c3 s4]; [discriminate|]. char_cases c3.
    intros Hm. apply consumed_append in Hm as (text' & Hm & ->).
    apply plural_options_append in Hm as ->.
    split; [|discriminate]. app_simpl. reflexivity.
  - destruct s1 as [|c s2]; [discriminate|].
    destruct (TexError.is_line_terminator c); [discriminate|].
    injection Hm as <- <-. split; [reflexivity | discriminate].
Qed.

Lemma pattern_not_percent (c : ascii) (s : string) :
  Ascii.eqb c "%" = false -> TexError.pattern (String c s) = None.
Proof. char_cases c; intros _; reflexivity. Qed.

Lemma split_from_rejoin (fuel : nat) (piece s : string) :
  (String.length s < fuel)%nat ->
  rejoin (TexError.split_from fuel piece s) = piece +:+ s /\
  Forall (fun g => g <> EmptyString) (groups (TexError.split_from fuel piece s)).
Proof.
  revert piece s. induction fuel as [|fuel IH]; intros piece s Hf; [lia|].
  cbn [TexError.split_from]. destruct s as [|c s'].
  - cbn [rejoin groups]. rewrite append_nil_r. auto.
  - destruct (TexError.pattern (String c s')) as [[group rest]|] eqn:Hp.
    + pose proof (pattern_length _ _ _ Hp) as Hlen.
      apply pattern_append in Hp as [Hs Hne].
      destruct (IH EmptyString rest) as [Hj Hg]; [cbn in *; lia|].
      cbn [rejoin groups]. rewrite Hj, Hs. app_simpl.
      split; [reflexivity|].
      constructor; assumption.
    + destruct (IH (piece +:+ String c EmptyString) s') as [Hj Hg];
        [cbn in *; lia|].
      rewrite Hj. app_simpl. auto.
Qed.

(** X12.  [split] cuts a string without losing anything: the pieces put
    together again, with a percent sign before each group, are the string;
    and no group is empty. *)
Theorem split_rejoin (str : string) :
  rejoin (TexError.split str) = str /\
  Forall (fun g => g <> EmptyString) (groups (TexError.split str)).
Proof. unfold TexError.split. apply split_from_rejoin. lia. Qed.

Lemma split_from_piece (fuel : nat) (piece s : string) :
  (String.length s < fuel)%nat ->
  TexError.split_from fuel piece s =
  match TexError.split_from fuel EmptyString s with
  | first :: parts => (piece +:+ first) :: parts
  | [] => []
  end.
Proof.
  revert piece s. induction fuel as [|fuel IH]; intros piece s Hf; [lia|].
  cbn [TexError.split_from]. destruct s as [|c s'].
  - rewrite append_nil_r. reflexivity.
  - destruct (TexError.pattern (String c s')) as [[group rest]|].
    + rewrite append_nil_r. reflexivity.
    + rewrite (IH (piece +:+ String c EmptyString)) by (cbn in *; lia).
      rewrite (IH (EmptyString +:+ String c EmptyString)) by (cbn in *; lia).
      destruct (TexError.split_from fuel EmptyString s'); [reflexivity|].
      app_simpl. reflexivity.
Qed.

Lemma split_from_step (fuel : nat) (piece : string) (c : ascii) (s : string) :
  TexError.split_from (S fuel) piece (String c s) =
  match TexError.pattern (String c s) with
  | Some (group, rest) =>
      piece :: group :: TexError.split_from fuel EmptyString rest
  | None => TexError.split_from fuel (piece +:+ String c EmptyString) s
  end.
Proof. reflexivity. Qed.

Lemma split_no_match (c : ascii) (s : string) :
  TexError.pattern (String c s) = None ->
  TexError.split (String c s) =
  match TexError.split s with
  | first :: parts => String c first :: parts
  | [] => []
  end.
Proof.
  intros Hp. unfold TexError.split. rewrite split_from_step, Hp.
  change (String.length (String c s)) with (S (String.length s)).
  rewrite split_from_piece by lia.
  destruct (TexError.split_from _ _ s); reflexivity.
Qed.

Lemma split_match (s group rest : string) :
  TexError.pattern s = Some (group, rest) ->
  TexError.split s = EmptyString :: group :: TexError.split rest.
Proof.
  intros Hp. pose proof (pattern_length _ _ _ Hp) as Hlen.
  unfold TexError.split. destruct s as [|c s']; [discriminate|].
  rewrite split_from_step, Hp.
  rewrite (split_from_fuel _ (S (String.length rest)))
    by (cbn in *; lia).
  reflexivity.
Qed.

Lemma split_not_nil (s : string) : TexError.split s <> [].
Proof.
  unfold TexError.split. generalize (S (String.length s)) EmptyString.
  intros fuel. revert s. induction fuel as [|fuel IH]; intros s piece;
    [discriminate|].
  cbn [TexError.split_from]. destruct s as [|c s']; [discriminate|].
  destruct (TexError.pattern _) as [[group rest]|]; [discriminate | apply IH].
Qed.

Lemma concat_cons (x : string) (l : list string) :
  String.concat EmptyString (x :: l) = x +:+ String.concat EmptyString l.
Proof.
  destruct l as [|y l]; cbn [String.concat].
  - rewrite append_nil_r. reflexivity.
  - reflexivity.
Qed.

(** [processString] reads its string from left to right: a character that
    starts no match of [pattern] is copied, and a match is replaced as the
    loop says. *)
Lemma processString_no_match (c : ascii) (s : string) (args : list string) :
  TexError.pattern (String c s) = None ->
  TexError.processString (String c s) args =
  String c (TexError.processString s args).
Proof.
  intros Hp. unfold TexError.processString. rewrite (split_no_match _ _ Hp).
  pose proof (split_not_nil s) as Hne.
  destruct (TexError.split s) as [|first [|part parts]]; [congruence| |];
    cbn [TexError.replace_odd]; rewrite !concat_cons; reflexivity.
Qed.

Lemma processString_match (s group rest : string) (args : list string) :
  TexError.pattern s = Some (group, rest) ->
  TexError.processString s args =
  default "???"%string (TexError.replacement args group)
  +:+ TexError.processString rest args.
Proof.
  intros Hp. unfold TexError.processString. rewrite (split_match _ _ _ Hp).
  cbn [TexError.replace_odd]. rewrite !concat_cons. reflexivity.
Qed.

Lemma processString_empty (args : list string) :
  TexError.processString EmptyString args = EmptyString.
Proof. reflexivity. Qed.

Lemma constructor_two (id str : string) (args : list string) :
  TexError.constructor (id :: str :: args) =
    {| TexError.id := Some id;
       TexError.message := TexError.processString str args |}.
Proof.
  unfold TexError.constructor.
  destruct (1 <? Z.of_nat (length (id :: str :: args))) eqn:E;
    [reflexivity|].
  apply Z.ltb_ge in E. cbn [length] in E. lia.
Qed.

Lemma processString_prefix (a b : string) (args : list string) :
  no_percent a = true ->
  TexError.processString (a +:+ b) args
  = a +:+ TexError.processString b args.
Proof.
  intros Ha. induction a as [|c a IH]; [reflexivity|].
  cbn [no_percent] in Ha. apply andb_true_iff in Ha as [Hc Ha].
  apply negb_true_iff in Hc. rewrite !append_cons.
  rewrite processString_no_match by (apply pattern_not_percent, Hc).
  rewrite IH by exact Ha. reflexivity.
Qed.

(** X13.  Text without a percent sign passes through [processString]
    unchanged, whatever the arguments: at the start of a message it is
    copied and the rest of the message is processed after it, and a
    message made of such text only is returned as it is. *)
Theorem processString_plain_text (a : string) (args : list string) :
  no_percent a = true ->
  (forall b : string,
      TexError.processString (a +:+ b) args
      = a +:+ TexError.processString b args) /\
  TexError.processString a args = a.
Proof.
  intros Ha. split; [intros b; apply processString_prefix, Ha|].
  pose proof (processString_prefix a EmptyString args Ha) as Hpre.
  rewrite append_nil_r, processString_empty, append_nil_r in Hpre.
  exact Hpre.
Qed.

Lemma line_terminator_no_match (c : ascii) (s : string) :
  TexError.is_line_terminator c = true ->
  TexError.pattern (String "%" (String c s)) = None.
Proof. char_cases c; intros _; reflexivity. Qed.

(** X14.  A doubled percent sign stands for one percent sign.  A percent
    sign that ends the message, or that stands before a line break, is
    kept as it is. *)
Theorem processString_percent (b : string) (args : list string) :
  TexError.processString (String "%" (String "%" b)) args
  = String "%" (TexError.processString b args) /\
  TexError.processString "%" args = "%"%string /\
  (forall c : ascii,
      TexError.is_line_terminator c = true ->
      TexError.processString (String "%" (String c b)) args
      = String "%" (TexError.processString (String c b) args)).
Proof.
  split; [|split].
  - rewrite (processString_match _ "%" b) by reflexivity. reflexivity.
  - reflexivity.
  - intros c Hc. apply processString_no_match, line_terminator_no_match, Hc.
Qed.

Lemma span_every (p : ascii -> bool) (a b : string) :
  every p a = true -> starts_with p b = false ->
  TexError.span p (a +:+ b) = (a, b).
Proof.
  intros Ha Hb. induction a as [|c a IH].
  - rewrite append_nil_l. destruct b as [|c b']; [reflexivity|].
    cbn in Hb. cbn [TexError.span]. rewrite Hb. reflexivity.
  - cbn [every] in Ha. apply andb_true_iff in Ha as [Hc Ha].
    rewrite append_cons. cbn [TexError.span]. rewrite Hc, (IH Ha).
    reflexivity.
Qed.

Lemma span1_every (p : ascii -> bool) (c : ascii) (a b : string) :
  every p (String c a) = true -> starts_with p b = false ->
  TexError.span1 p (String c a +:+ b) = Some (String c a, b).
Proof.
  intros Ha Hb. unfold TexError.span1. rewrite span_every by assumption.
  reflexivity.
Qed.

Lemma span1_digits (d : ascii) (ds b : string) :
  all_digits (String d ds) = true -> starts_with_digit b = false ->
  TexError.span1 TexError.is_digit (String d ds +:+ b)
  = Some (String d ds, b).
Proof. apply span1_every. Qed.

Lemma digit_between (d : ascii) :
  TexError.is_digit d = true ->
  String.leb "0" (String d EmptyString)
  && String.leb (String d EmptyString) "9" = true.
Proof. char_cases d; intros _; reflexivity. Qed.

Lemma parseInt_digits (d : ascii) (ds : string) :
  all_digits (String d ds) = true ->
  exists n : Z, TexError.parseInt (String d ds) = Some n.
Proof.
  intros Hds. unfold TexError.parseInt.
  pose proof (span1_digits d ds EmptyString Hds eq_refl) as Hs.
  rewrite append_nil_r in Hs. rewrite Hs. eauto.
Qed.

Lemma argument_Some (args : list string) (n : Z) :
  TexError.argument args (Some n)
  = if 1 <=? n then args !! Z.to_nat (n - 1) else None.
Proof.
  unfold TexError.argument.
  destruct (Z.leb_spec 0 (n - 1)), (Z.leb_spec 1 n); try reflexivity; lia.
Qed.

(** X15.  [%n], with [n] written in digits and no digit after it, is
    replaced by the [n]-th argument, counted from one; when there is no
    such argument ([n] is zero or above the number of arguments) it is
    replaced by three question marks. *)
Theorem processString_numbered (d : ascii) (ds b : string)
    (args : list string) :
  all_digits (String d ds) = true ->
  starts_with_digit b = false ->
  exists n : Z,
    TexError.parseInt (String d ds) = Some n /\
    TexError.processString (String "%" (String d ds +:+ b)) args
    = default "???"%string
        (if 1 <=? n then args !! Z.to_nat (n - 1) else None)
      +:+ TexError.processString b args.
Proof.
  intros Hds Hb. destruct (parseInt_digits d ds Hds) as [n Hn].
  exists n. split; [exact Hn|].
  rewrite (processString_match _ (String d ds) b).
  - unfold TexError.replacement. cbn [TexError.charAt0].
    unfold all_digits in Hds. cbn [every] in Hds.
    apply andb_true_iff in Hds as [Hd _].
    rewrite (digit_between d Hd), Hn, argument_Some. reflexivity.
  - unfold TexError.pattern, TexError.pattern_group.
    rewrite span1_digits by assumption. reflexivity.
Qed.

Lemma length_append (a b : string) :
  String.length (a +:+ b) = (String.length a + String.length b)%nat.
Proof.
  induction a as [|c a IH]; [reflexivity|].
  rewrite append_cons. cbn [String.length]. rewrite IH. reflexivity.
Qed.

Lemma substring_0_append (a b : string) :
  String.substring 0 (String.length a) (a +:+ b) = a.
Proof.
  induction a as [|c a IH].
  - rewrite append_nil_l. destruct b; reflexivity.
  - rewrite append_cons. cbn [String.length String.substring].
    rewrite IH. reflexivity.
Qed.

Lemma substr1_but_last_braced (ds : string) :
  TexError.substr1_but_last (String "{" (ds +:+ "}")) = ds.
Proof.
  unfold TexError.substr1_but_last. cbn [String.length].
  rewrite length_append. cbn [String.length].
  replace (S (String.length ds + 1) - 2)%nat with (String.length ds) by lia.
  cbn [String.substring]. apply substring_0_append.
Qed.

Lemma braced_number_digits (d : ascii) (ds b : string) :
  all_digits (String d ds) = true ->
  TexError.braced_number (String "{" (String d ds +:+ String "}" b))
  = Some (String "{" (String d ds +:+ "}"), b).
Proof.
  intros Hds. unfold TexError.braced_number.
  rewrite span1_digits by (assumption || reflexivity). reflexivity.
Qed.

Lemma braced_test (d : ascii) (rest : string) :
  TexError.is_digit d = true -> rest <> EmptyString ->
  String.leb "0" (String d rest) && String.leb (String d rest) "9"
  = negb (Ascii.eqb d "9").
Proof.
  intros Hd Hrest. destruct rest as [|c rest]; [congruence|].
  revert Hd. char_cases d; intros _; reflexivity.
Qed.

(** X16.  [%{n}] is replaced like [%n], by the [n]-th argument or by three
    question marks, when the first digit of [n] is not a 9.  When the first
    digit is a 9 the test of the code fails and the text in braces is left
    in the message, without its percent sign. *)
Theorem processString_braced (d : ascii) (ds b : string)
    (args : list string) :
  all_digits (String d ds) = true ->
  let message := String "%" (String "{" (String d ds +:+ String "}" b)) in
  (Ascii.eqb d "9" = false ->
   exists n : Z,
     TexError.parseInt (String d ds) = Some n /\
     TexError.processString message args
     = default "???"%string
         (if 1 <=? n then args !! Z.to_nat (n - 1) else None)
       +:+ TexError.processString b args) /\
  (Ascii.eqb d "9" = true ->
   TexError.processString message args
   = String "{" (String d ds +:+ String "}" (TexError.processString b args))).
Proof.
  intros Hds message.
  assert (Hp : TexError.pattern message
               = Some (String "{" (String d ds +:+ "}"), b)).
  { unfold message, TexError.pattern, TexError.pattern_group.
    rewrite braced_number_digits by assumption. reflexivity. }
  assert (Hd : TexError.is_digit d = true).
  { unfold all_digits in Hds. cbn [every] in Hds.
    apply andb_true_iff in Hds as [Hd _]. exact Hd. }
  assert (Htest :
            String.leb "0" (String d (ds +:+ "}"))
            && String.leb (String d (ds +:+ "}")) "9"
            = negb (Ascii.eqb d "9")).
  { apply braced_test; [exact Hd|]. destruct ds; discriminate. }
  rewrite (processString_match _ _ _ args Hp).
  unfold TexError.replacement.
  change (TexError.charAt0 (String "{" (String d ds +:+ "}")))
    with "{"%string.
  change (String.leb "0" "{" && String.leb "{" "9") with false.
  change (String.eqb "{" "{") with true. cbn iota.
  change (TexError.substr1 (String "{" (String d ds +:+ "}")))
    with (String d (ds +:+ "}")).
  rewrite Htest. split; intros H9; rewrite H9; cbn [negb].
  - destruct (parseInt_digits d ds Hds) as [n Hn]. exists n.
    split; [exact Hn|].
    rewrite substr1_but_last_braced, Hn, argument_Some. reflexivity.
  - apply Ascii.eqb_eq in H9 as ->.
    change (TexError.is_plural (String "{" (String "9" ds +:+ "}")))
      with false.
    unfold default; cbn [from_option id]. app_simpl. reflexivity.
Qed.

Lemma plural_options_plain_step (fuel : nat) (c : ascii) (s text rest : string) :
  plain_option_char c = true ->
  TexError.plural_options fuel s = Some (text, rest) ->
  TexError.plural_options (S fuel) (String c s) = Some (String c text, rest).
Proof.
  intros Hc Hs. cbn [TexError.plural_options]. revert Hc.
  char_cases c; intros _; rewrite Hs; reflexivity.
Qed.

Lemma plural_options_plain (fuel : nat) (body b : string) :
  every plain_option_char body = true ->
  (String.length body < fuel)%nat ->
  TexError.plural_options fuel (body +:+ String "}" b)
  = Some (body +:+ "}", b).
Proof.
  revert fuel. induction body as [|c body IH]; intros fuel Hbody Hf.
  - destruct fuel as [|fuel]; [cbn in Hf; lia | reflexivity].
  - destruct fuel as [|fuel]; [lia|].
    cbn [every] in Hbody. apply andb_true_iff in Hbody as [Hc Hbody].
    rewrite !append_cons. apply plural_options_plain_step; [exact Hc|].
    apply IH; [exact Hbody | cbn in Hf; lia].
Qed.

Lemma list_ascii_of_append (a b : string) :
  list_ascii_of_string (a +:+ b)
  = (list_ascii_of_string a ++ list_ascii_of_string b)%list.
Proof.
  induction a as [|c a IH]; [reflexivity|].
  rewrite append_cons. cbn [list_ascii_of_string]. rewrite IH. reflexivity.
Qed.

Lemma every_In (p : ascii -> bool) (s : string) (c : ascii) :
  every p s = true -> In c (list_ascii_of_string s) -> p c = true.
Proof.
  induction s as [|x s IH]; cbn [every list_ascii_of_string In];
    [tauto|].
  intros Hs [<-|Hin]; apply andb_true_iff in Hs as [Hx Hs]; auto.
Qed.

Lemma lower_is_no_digit (l : ascii) :
  TexError.is_lower l = true ->
  TexError.is_digit l = false /\
  forall rest : string,
    String.leb "0" (String l rest) && String.leb (String l rest) "9" = false.
Proof. char_cases l; intros _; split; reflexivity. Qed.

Lemma is_plural_plain (l d : ascii) (name ds body : string) :
  all_lower (String l name) = true ->
  all_digits (String d ds) = true ->
  every plain_option_char body = true ->
  TexError.is_plural
    (String "{" (String l name +:+ String ":" (String "%"
       (String d ds +:+ String "|" (body +:+ "}")))))
  = true.
Proof.
  intros Hname Hds Hbody. unfold TexError.is_plural.
  rewrite span1_every by (assumption || reflexivity).
  rewrite span1_every by (assumption || reflexivity).
  rewrite list_ascii_of_append, rev_app_distr.
  cbn [list_ascii_of_string rev app]. 
  change (Ascii.eqb "}" "}") with true. cbn [andb].
  apply forallb_forall. intros c Hin. apply in_rev in Hin.
  apply (every_In _ _ _ Hbody) in Hin. unfold plain_option_char in Hin.
  apply andb_true_iff in Hin as [_ Hin]. exact Hin.
Qed.

(** X17.  A plural form [%{name:%n|...}], whose options have no percent
    sign, closing brace or line break in them, is not resolved: it stays in
    the message as it is written, percent sign included, whatever the
    arguments. *)
Theorem processString_plural_form (l d : ascii) (name ds body b : string)
    (args : list string) :
  all_lower (String l name) = true ->
  all_digits (String d ds) = true ->
  every plain_option_char body = true ->
  let form := String "{" (String l name +:+ String ":" (String "%"
                 (String d ds +:+ String "|" (body +:+ "}")))) in
  TexError.processString (String "%" (form +:+ b)) args
  = String "%" (form +:+ TexError.processString b args).
Proof.
  intros Hname Hds Hbody form.
  assert (Hl : TexError.is_lower l = true).
  { unfold all_lower in Hname. cbn [every] in Hname.
    apply andb_true_iff in Hname as [Hl _]. exact Hl. }
  destruct (lower_is_no_digit l Hl) as [Hnd Htest].
  assert (Hp : TexError.pattern (String "%" (form +:+ b)) = Some (form, b)).
  { unfold form, TexError.pattern, TexError.pattern_group. app_simpl.
    change (TexError.span1 TexError.is_digit (String "{" ?s)) with (@None TexError.Match).
    cbn [TexError.or_else].
    unfold TexError.braced_number at 1. unfold TexError.span1 at 1.
    cbn [TexError.span]. rewrite Hnd. cbn [TexError.or_else].
    unfold TexError.plural_form.
    pose proof (span1_every TexError.is_lower l name
                  (String ":" (String "%" (String d ds +:+ String "|"
                     (body +:+ String "}" b)))) Hname eq_refl) as Hs1.
    rewrite !append_cons in Hs1. rewrite Hs1.
    pose proof (span1_every TexError.is_digit d ds
                  (String "|" (body +:+ String "}" b)) Hds eq_refl) as Hs2.
    rewrite !append_cons in Hs2. rewrite Hs2.
    rewrite plural_options_plain
      by (try assumption; rewrite length_append; cbn; lia).
    cbn [TexError.consumed TexError.or_else]. app_simpl. reflexivity. }
  rewrite (processString_match _ _ _ args Hp).
  unfold TexError.replacement.
  change (TexError.charAt0 form) with "{"%string.
  change (String.leb "0" "{" && String.leb "{" "9") with false.
  change (String.eqb "{" "{") with true. cbn iota.
  unfold form at 1 2. rewrite !append_cons.
  cbn [TexError.substr1]. rewrite Htest. fold form.
  unfold form at 1. rewrite is_plural_plain by assumption. fold form.
  unfold default; cbn [from_option id]. app_simpl. reflexivity.
Qed.

(** X18.  A TexError made from an identifier and a message without a
    percent sign has that identifier and that message, whatever arguments
    follow. *)
Theorem TexError_plain_message (id str : string) (args : list string) :
  no_percent str = true ->
  TexError.constructor (id :: str :: args) =
    {| TexError.id := Some id; TexError.message := str |}.
Proof.
  intros Hstr. rewrite constructor_two.
  pose proof (processString_prefix str EmptyString args Hstr) as Hpre.
  rewrite append_nil_r, processString_empty, append_nil_r in Hpre.
  rewrite Hpre. reflexivity.
Qed.
End MessageProperties.

(** X13 at work. *)
Lemma processString_plain_text_witness :
  TexError.processString "Missing close brace" ["\frac"]%string
  = "Missing close brace"%string.
Proof.
  apply (proj2 (processString_plain_text "Missing close brace"
                  ["\frac"]%string eq_refl)).
Defined.

(** X14 at work: a percent sign before a line feed. *)
Lemma processString_percent_witness :
  TexError.processString (String "%" (String "010" "1")) ["x"]%string
  = String "%" (String "010" "1").
Proof.
  destruct (processString_percent "1" ["x"]%string) as (_ & _ & Hbreak).
  rewrite (Hbreak "010"%char eq_refl). reflexivity.
Defined.

(** X15 at work: the second of two arguments, and a missing third. *)
Lemma processString_numbered_witness :
  TexError.processString "%2 here" ["a"; "b"]%string = "b here"%string /\
  TexError.processString "%3 here" ["a"; "b"]%string = "??? here"%string.
Proof.
  split.
  - destruct (processString_numbered "2" EmptyString " here"
                ["a"; "b"]%string eq_refl eq_refl) as (n & Hn & Heq).
    injection Hn as <-. exact Heq.
  - destruct (processString_numbered "3" EmptyString " here"
                ["a"; "b"]%string eq_refl eq_refl) as (n & Hn & Heq).
    injection Hn as <-. exact Heq.
Defined.

(** X16 at work: [%{2}] is replaced, [%{9}] is not. *)
Lemma processString_braced_witness :
  TexError.processString "%{2}." ["a"; "b"]%string = "b."%string /\
  TexError.processString "%{9}." ["a"; "b"]%string = "{9}."%string.
Proof.
  split.
  - destruct (processString_braced "2" EmptyString "." ["a"; "b"]%string
                eq_refl) as [Hlow _].
    destruct (Hlow eq_refl) as (n & Hn & Heq). injection Hn as <-. exact Heq.
  - destruct (processString_braced "9" EmptyString "." ["a"; "b"]%string
                eq_refl) as [_ Hnine].
    exact (Hnine eq_refl).
Defined.

(** X17 at work. *)
Lemma processString_plural_form_witness :
  TexError.processString "%{plural:%1|one|two} left" ["1"]%string
  = "%{plural:%1|one|two} left"%string.
Proof.
  exact (processString_plural_form "p" "1" "lural" EmptyString "one|two"
           " left" ["1"]%string eq_refl eq_refl eq_refl).
Defined.

(** X18 at work. *)
Lemma TexError_plain_message_witness :
  TexError.constructor ["ExtraCloseMissingOpen"; "Extra close brace"]%string
  = {| TexError.id := Some "ExtraCloseMissingOpen"%string;
       TexError.message := "Extra close brace" |}.
Proof.
  exact (TexError_plain_message "ExtraCloseMissingOpen" "Extra close brace"
           [] eq_refl).
Defined.

(** X2 at work: the new sample item is compiled, then typeset. *)
Lemma forward_never_lowers_witness :
  let compiled := (@compile sample_externals sample_collaborators
                     sample_document sample_item).1 in
  STATE.COMPILED <= MathItem._state (this compiled) /\
  STATE.TYPESET
  <= MathItem._state
       (this (@typeset sample_externals sample_collaborators
                sample_document compiled).1).
Proof.
  cbn zeta. split.
  - apply (@forward_never_lowers sample_externals sample_collaborators
             sample_document sample_item). reflexivity.
  - apply (@forward_never_lowers sample_externals sample_collaborators
             sample_document). reflexivity.
Defined.
